(** * books_dashboard: the normaliser, the KPI aggregator and the crawler's
    price parser, embedded from [src/main.py] and [src/scrape_books.py].

    Conventions of the embedding.
    - A Python [str] is a [string]: each [ascii] stands for the code point of
      the same number, so the strings covered are those over U+0000..U+00FF.
      On that range [str.strip], [str.lower], [\d] and the case-insensitive
      search are exactly the functions below.  The crawler's price text is
      kept as a list of code points ([list N]) because its first step is
      about code points that have no UTF-8 encoding.
    - A Python/NumPy float is a [pyfloat]: a rational, an infinity or NaN.
      Rounding to binary64 is not modelled: [Fin q] stands for the double
      nearest to [q], which is an infinity when [q] is beyond the range of
      doubles.  Rounding keeps the order and the sign; signed zeros are
      identified.
    - A pandas frame is a header and a list of rows; a missing cell is the
      float NaN, as in pandas.  [astype(str)] follows pandas 1.x and 2.x,
      where a missing cell becomes the text [nan].  The dtype of a column
      is the one pandas infers from its cells; a column without cells is
      held as objects.  What pandas refuses is an error here as well:
      [to_numeric] coerces a literal beyond the range of doubles to NaN,
      [Series.mean] raises on a text (pandas 2) and [.str] on a column that
      holds no text.
    - [load_data] is taken from the frame that [pd.read_csv] returns; the
      two branches that report an unreadable file come before that. *)

From Stdlib Require Import Ascii QArith Qpower Qabs.
From stdpp Require Import gmap strings list fin_maps.

(* ===================================================================== *)
(** * Part I: definitions *)
(* ===================================================================== *)

(** ** Characters and strings *)

Definition code (c : ascii) : N := N_of_ascii c.

(** [str.isspace] on one character (U+0009..000D, U+001C..0020, U+0085,
    U+00A0). *)
Definition py_isspace (c : ascii) : bool :=
  let n := code c in
  (((9 <=? n) && (n <=? 13)) || ((28 <=? n) && (n <=? 32))
   || (n =? 133) || (n =? 160))%N.

(** ASCII digit, as [0-9] in a regular expression. *)
Definition is_digit (c : ascii) : bool :=
  let n := code c in ((48 <=? n) && (n <=? 57))%N.

Definition digit_val (c : ascii) : N := (code c - 48)%N.

Definition digit_char (d : N) : ascii := ascii_of_N (48 + d).

(** [str.lower] on one character: A..Z and the Latin-1 capitals
    U+00C0..U+00DE (without the multiplication sign U+00D7). *)
Definition lower_char (c : ascii) : ascii :=
  let n := code c in
  if (((65 <=? n) && (n <=? 90))
      || ((192 <=? n) && (n <=? 222) && negb (n =? 215)))%N
  then ascii_of_N (n + 32) else c.

Fixpoint lower (s : string) : string :=
  match s with
  | EmptyString => EmptyString
  | String c s' => String (lower_char c) (lower s')
  end.

Definition str_empty (s : string) : bool :=
  match s with EmptyString => true | String _ _ => false end.

Fixpoint lstrip (s : string) : string :=
  match s with
  | EmptyString => EmptyString
  | String c s' => if py_isspace c then lstrip s' else s
  end.

Fixpoint rstrip (s : string) : string :=
  match s with
  | EmptyString => EmptyString
  | String c s' =>
      let r := rstrip s' in
      if py_isspace c && str_empty r then EmptyString else String c r
  end.

(** [s.strip()] *)
Definition strip (s : string) : string := rstrip (lstrip s).

(** [s.startswith(p)] *)
Fixpoint startswith (p s : string) : bool :=
  match p, s with
  | EmptyString, _ => true
  | String a p', String b s' => bool_decide (a = b) && startswith p' s'
  | String _ _, EmptyString => false
  end.

(** [sub in s] *)
Fixpoint contains (sub s : string) : bool :=
  startswith sub s
  || match s with
     | EmptyString => false
     | String _ s' => contains sub s'
     end.

(** [re.sub] of a one-character class by the empty string: the characters
    of the class are dropped. *)
Fixpoint remove_chars (cls : ascii → bool) (s : string) : string :=
  match s with
  | EmptyString => EmptyString
  | String c s' =>
      if cls c then remove_chars cls s' else String c (remove_chars cls s')
  end.

(** [s.replace(old, new)] for a non-empty [old]: occurrences are replaced
    from the left and do not overlap.  [skip] counts the characters of the
    occurrence being replaced that are still to be passed over. *)
Fixpoint replace_go (old new : string) (skip : nat) (s : string) : string :=
  match s with
  | EmptyString => EmptyString
  | String c s' =>
      match skip with
      | S k => replace_go old new k s'
      | O =>
          if startswith old s
          then new +:+ replace_go old new (String.length old - 1) s'
          else String c (replace_go old new 0 s')
      end
  end.

Definition replace (old new s : string) : string := replace_go old new 0 s.

(** [re.match(r'^\d+$', s)]: one or more digits and nothing else.  ([$] would
    also accept one final newline; the only caller passes a stripped string,
    which has none.) *)
Fixpoint all_digits (s : string) : bool :=
  match s with
  | EmptyString => true
  | String c s' => is_digit c && all_digits s'
  end.

Definition match_digits (s : string) : bool := negb (str_empty s) && all_digits s.

(** ** Numbers and their text *)

(** A float: a finite value, an infinity or NaN. *)
Inductive pyfloat : Type :=
  | Fin (q : Q)
  | Inf (negative : bool)
  | NaN.

(** The longest prefix of digits, and what follows it. *)
Fixpoint digits_prefix (s : string) : string * string :=
  match s with
  | EmptyString => (EmptyString, EmptyString)
  | String c s' =>
      if is_digit c
      then let '(d, r) := digits_prefix s' in (String c d, r)
      else (EmptyString, s)
  end.

Fixpoint digits_value_from (acc : N) (d : string) : N :=
  match d with
  | EmptyString => acc
  | String c d' => digits_value_from (10 * acc + digit_val c) d'
  end.

Definition digits_value (d : string) : N := digits_value_from 0 d.

Definition read_sign (s : string) : bool * string :=
  match s with
  | String "-" r => (true, r)
  | String "+" r => (false, r)
  | _ => (false, s)
  end.

Definition is_exp_mark (c : ascii) : bool :=
  bool_decide (c = "e"%char) || bool_decide (c = "E"%char).

(** What may follow the mantissa: nothing, or [e]/[E], an optional sign and
    at least one digit. *)
Definition parse_exponent (s : string) : option Z :=
  match s with
  | EmptyString => Some 0%Z
  | String c r =>
      if is_exp_mark c then
        let '(neg, r1) := read_sign r in
        let '(d, r2) := digits_prefix r1 in
        if negb (str_empty d) && str_empty r2
        then Some (if neg then - Z.of_N (digits_value d)
                   else Z.of_N (digits_value d))%Z
        else None
      else None
  end.

(** The value [± m * 10^(e - k)] of a literal with digits [m], [k] of them
    after the point, and exponent [e]. *)
Definition decimal_value (neg : bool) (m : N) (k : nat) (e : Z) : Q :=
  Qred (inject_Z (if neg then - Z.of_N m else Z.of_N m)
        * Qpower (10 # 1) (e - Z.of_nat k)).

(** A decimal literal: [[sign] digits [. digits] [exponent]] or
    [[sign] . digits [exponent]], with nothing before or after.  This is the
    grammar shared by Python's [float] and by the number reader behind
    [pandas.to_numeric]. *)
Definition parse_decimal (s : string) : option Q :=
  let '(neg, s1) := read_sign s in
  let '(ip, s2) := digits_prefix s1 in
  let '(fp, s3) :=
    match s2 with
    | String "." r => digits_prefix r
    | _ => (EmptyString, s2)
    end in
  if str_empty ip && str_empty fp then None
  else match parse_exponent s3 with
       | None => None
       | Some e =>
           Some (decimal_value neg (digits_value (ip +:+ fp))
                   (String.length fp) e)
       end.

(** Python accepts an underscore in a numeric literal only between two
    digits. *)
Fixpoint underscores_ok (prev_digit : bool) (s : string) : bool :=
  match s with
  | EmptyString => true
  | String c s' =>
      if bool_decide (c = "_"%char)
      then prev_digit
           && match s' with
              | String d _ => is_digit d
              | EmptyString => false
              end
           && underscores_ok false s'
      else underscores_ok (is_digit c) s'
  end.

(** Python's [float(s)] on a string; [None] is [ValueError]. *)
Definition py_float (s : string) : option pyfloat :=
  let t := strip s in
  if underscores_ok false t then
    let u := remove_chars (λ c, bool_decide (c = "_"%char)) t in
    let '(neg, body) := read_sign u in
    let b := lower body in
    if bool_decide (b = "inf") || bool_decide (b = "infinity")
    then Some (Inf neg)
    else if bool_decide (b = "nan") then Some NaN
    else Fin <$> parse_decimal u
  else None.

(** The least magnitude beyond the range of doubles: half-way between the
    largest double, [2^1024 - 2^971], and [2^1024]. *)
Definition DBL_OVERFLOW : Q := inject_Z (2 ^ 1024 - 2 ^ 970).

Definition overflows (q : Q) : bool := Qle_bool DBL_OVERFLOW (Qabs q).

(** [pandas.to_numeric(..., errors='coerce')] on one text cell: a decimal
    literal, or one of the spellings of infinity; anything else, the empty
    text included, is coerced to NaN.  A literal whose value is beyond the
    range of doubles is an error for the number reader of pandas, so it is
    coerced to NaN as well. *)
Definition to_numeric (s : string) : pyfloat :=
  match parse_decimal s with
  | Some q => if overflows q then NaN else Fin q
  | None =>
      let '(neg, body) := read_sign s in
      let b := lower body in
      if bool_decide (b = "inf") || bool_decide (b = "infinity")
      then Inf neg else NaN
  end.

(** Decimal digits of a natural number: exactly [k] of them, most
    significant first. *)
Fixpoint fixed_digits (k : nat) (n : N) : string :=
  match k with
  | O => EmptyString
  | S k' => fixed_digits k' (n / 10) +:+ String (digit_char (n mod 10)) EmptyString
  end.

Fixpoint width_from (fuel w : nat) (n : N) : nat :=
  match fuel with
  | O => w
  | S f => if (n <? 10 ^ N.of_nat w)%N then w else width_from f (S w) n
  end.

(** Number of decimal digits of [n] (1 for 0). *)
Definition width (n : N) : nat := width_from (N.to_nat (N.size n)) 1 n.

(** [str(n)] for a natural number. *)
Definition nat_digits (n : N) : string := fixed_digits (width n) n.

(** [str(z)] for an [int]. *)
Definition int_repr (z : Z) : string :=
  (if (z <? 0)%Z then "-" else "") +:+ nat_digits (Z.abs_N z).

(** The least [k] with [k0 <= k < k0 + fuel] and [d] dividing [10^k]. *)
Fixpoint scale_from (fuel k : nat) (d : N) : option nat :=
  match fuel with
  | O => None
  | S f =>
      if ((10 ^ N.of_nat k) mod d =? 0)%N then Some k
      else scale_from f (S k) d
  end.

(** [repr(x)] for a finite float, in positional notation: the integer part,
    a point and the decimals ([.0] when there are none).  [repr] prints at
    most 17 significant digits, so the decimals are looked for up to 17; a
    rational that needs more is cut there.  (Python switches to exponent
    notation below 1e-4 and from 1e16 on; both notations read back to the
    same value.) *)
Definition fin_repr (q : Q) : string :=
  let r := Qred q in
  let d := Npos (Qden r) in
  let k := default 17 (scale_from 18 0 d) in
  let m := (Z.abs_N (Qnum r) * 10 ^ N.of_nat k / d)%N in
  (if (Qnum r <? 0)%Z then "-" else "")
  +:+ nat_digits (m / 10 ^ N.of_nat k)
  +:+ "."
  +:+ (if Nat.eqb k 0 then "0" else fixed_digits k (m mod 10 ^ N.of_nat k)).

(** [repr(x)] for a float.  A value beyond the range of doubles stands for
    an infinity and is written as one. *)
Definition float_repr (x : pyfloat) : string :=
  match x with
  | Fin q =>
      if overflows q then (if Qle_bool 0 q then "inf" else "-inf")
      else fin_repr q
  | Inf false => "inf"
  | Inf true => "-inf"
  | NaN => "nan"
  end.

(** ** Frames *)

(** A cell as [pandas.read_csv] delivers it: text, an integer, a float or a
    boolean.  A missing cell is the float NaN. *)
Inductive cell : Type :=
  | CStr (s : string)
  | CInt (z : Z)
  | CFlt (x : pyfloat)
  | CBool (b : bool).

Definition missing : cell := CFlt NaN.

(** [pd.isnull(x)] *)
Definition isnull (c : cell) : bool :=
  match c with CFlt NaN => true | _ => false end.

(** [str(x)], which is also what [astype(str)] does to each cell. *)
Definition py_str (c : cell) : string :=
  match c with
  | CStr s => s
  | CInt z => int_repr z
  | CFlt x => float_repr x
  | CBool true => "True"
  | CBool false => "False"
  end.

Record DataFrame : Type := mkDataFrame {
  columns : list string;
  rows : list (list cell)
}.

(** Position of the first column called [name]. *)
Fixpoint index_of (name : string) (cols : list string) : option nat :=
  match cols with
  | [] => None
  | c :: cols' =>
      if bool_decide (c = name) then Some 0
      else S <$> index_of name cols'
  end.

(** The cell of [row] under the column [name] (missing when the row is too
    short, as [read_csv] pads short lines). *)
Definition get (cols : list string) (name : string) (row : list cell) : cell :=
  match index_of name cols with
  | Some i => default missing (row !! i)
  | None => missing
  end.

(** [Index.duplicated()]: marks every name already seen further left. *)
Fixpoint duplicated_from (seen : list string) (cols : list string) : list bool :=
  match cols with
  | [] => []
  | c :: cols' => bool_decide (c ∈ seen) :: duplicated_from (c :: seen) cols'
  end.

Definition duplicated (cols : list string) : list bool := duplicated_from [] cols.

(** Selection by a boolean mask, as [df.loc[:, mask]] does on every row. *)
Fixpoint select_mask {A : Type} (mask : list bool) (l : list A) : list A :=
  match mask, l with
  | b :: mask', x :: l' =>
      if b then x :: select_mask mask' l' else select_mask mask' l'
  | _, _ => []
  end.

(** [df[name] = df[name].apply(f)], where [f] may raise ([None]). *)
Definition apply_in_row (f : cell → option cell) (i : nat) (row : list cell)
  : option (list cell) :=
  match row !! i with
  | Some c => c' ← f c; Some (<[i := c']> row)
  | None => Some row
  end.

Definition apply_column (name : string) (f : cell → option cell)
  (df : DataFrame) : option DataFrame :=
  match index_of name (columns df) with
  | Some i =>
      rows' ← mapM (apply_in_row f i) (rows df);
      Some (mkDataFrame (columns df) rows')
  | None => None
  end.

(** [df.dropna(subset=names)] followed by [reset_index(drop=True)]: row
    labels are positions in the list, so the reindexing is implicit. *)
Definition dropna (subset : list string) (df : DataFrame) : DataFrame :=
  mkDataFrame (columns df)
    (List.filter
       (λ row, forallb (λ name, negb (isnull (get (columns df) name row))) subset)
       (rows df)).

(** ** [load_data], after [pd.read_csv] *)

(** [value in column_mapping.values()] *)
Definition in_values (value : string) (column_mapping : gmap string string) : bool :=
  bool_decide (value ∈ (map_to_list column_mapping).*2).

(** One turn of the loop over [df.columns]. *)
Definition resolve_column (column_mapping : gmap string string) (col : string)
  : gmap string string :=
  let col_lower := lower col in
  if contains "title" col_lower && negb (in_values "Title" column_mapping)
  then <[col := "Title"]> column_mapping
  else if contains "price" col_lower && negb (in_values "Price" column_mapping)
  then <[col := "Price"]> column_mapping
  else if contains "rating" col_lower && negb (in_values "Rating" column_mapping)
  then <[col := "Rating"]> column_mapping
  else if (contains "availability" col_lower || contains "avail" col_lower)
          && negb (in_values "Availability" column_mapping)
  then <[col := "Availability"]> column_mapping
  else column_mapping.

Definition resolve_columns (cols : list string) : gmap string string :=
  foldl resolve_column ∅ cols.

(** [df.rename(columns=column_mapping)] on one name. *)
Definition rename (column_mapping : gmap string string) (col : string) : string :=
  default col (column_mapping !! col).

Definition required_cols : list string :=
  ["Title"; "Price"; "Rating"; "Availability"].

(** The pound sign U+00A3, the comma and the dollar sign: the class
    [[£,$]]. *)
Definition is_currency (c : ascii) : bool :=
  (code c =? 163)%N || bool_decide (c = ","%char) || bool_decide (c = "$"%char).

(** The text handed to [pd.to_numeric] for a Price cell. *)
Definition price_text (c : cell) : string :=
  strip (replace "N/A" "" (remove_chars is_currency (py_str c))).

Definition clean_price_cell (c : cell) : cell := CFlt (to_numeric (price_text c)).

Definition word_to_num (s : string) : option Z :=
  if bool_decide (s = "one") then Some 1%Z
  else if bool_decide (s = "two") then Some 2%Z
  else if bool_decide (s = "three") then Some 3%Z
  else if bool_decide (s = "four") then Some 4%Z
  else if bool_decide (s = "five") then Some 5%Z
  else None.

(** [clean_rating(x)]; [None] is the [ValueError] that [float(s)] could
    raise. *)
Definition clean_rating (x : cell) : option pyfloat :=
  if isnull x then Some NaN
  else
    let s := strip (py_str x) in
    if match_digits s then py_float s
    else match word_to_num (lower s) with
         | Some n => Some (Fin (inject_Z n))
         | None => Some NaN
         end.

Definition clean_availability (c : cell) : cell := CStr (strip (py_str c)).

(** What [load_data] hands back: the frame, or [None] after reporting the
    missing columns, or an exception escaping from it. *)
Inductive outcome : Type :=
  | Loaded (df : DataFrame)
  | MissingColumns (missing_cols : list string)
  | Raised.

(** The header after stripping, renaming and dropping duplicated names,
    and the mask of the columns kept. *)
Definition stripped (df : DataFrame) : list string := strip <$> columns df.

Definition renamed (df : DataFrame) : list string :=
  rename (resolve_columns (stripped df)) <$> stripped df.

Definition kept (df : DataFrame) : list bool := negb <$> duplicated (renamed df).

Definition resolved (df : DataFrame) : DataFrame :=
  mkDataFrame (select_mask (kept df) (renamed df))
              (select_mask (kept df) <$> rows df).

Definition missing_of (cols : list string) : list string :=
  List.filter (λ col, negb (bool_decide (col ∈ cols))) required_cols.

Definition load_data (df : DataFrame) : outcome :=
  let df1 := resolved df in
  let missing_cols := missing_of (columns df1) in
  match missing_cols with
  | _ :: _ => MissingColumns missing_cols
  | [] =>
      match
        df2 ← apply_column "Price" (λ c, Some (clean_price_cell c)) df1;
        df3 ← apply_column "Rating" (λ c, CFlt <$> clean_rating c) df2;
        apply_column "Availability" (λ c, Some (clean_availability c)) df3
      with
      | Some df4 => Loaded (dropna required_cols df4)
      | None => Raised
      end
  end.

(** ** Float arithmetic used by the aggregations *)

Definition fadd (x y : pyfloat) : pyfloat :=
  match x, y with
  | NaN, _ | _, NaN => NaN
  | Fin a, Fin b => Fin (Qred (a + b))
  | Inf n, Fin _ | Fin _, Inf n => Inf n
  | Inf n, Inf n' => if Bool.eqb n n' then Inf n else NaN
  end.

(** Multiplication and division by a positive finite factor. *)
Definition fscale (x : pyfloat) (c : Q) : pyfloat :=
  match x with
  | Fin a => Fin (Qred (a * c))
  | _ => x
  end.

(** [x <= y] on floats: false as soon as one side is NaN. *)
Definition fle (x y : pyfloat) : bool :=
  match x, y with
  | NaN, _ | _, NaN => false
  | Fin a, Fin b => Qle_bool a b
  | Inf true, _ | _, Inf false => true
  | Inf false, _ | _, Inf true => false
  end.

(** Sameness of two floats as [isin] sees it: equal values, and NaN
    matches NaN. *)
Definition fsame (x y : pyfloat) : bool :=
  match x, y with
  | NaN, NaN => true
  | Fin a, Fin b => Qeq_bool a b
  | Inf n, Inf n' => Bool.eqb n n'
  | _, _ => false
  end.

(** The number a cell of a numeric column stands for. *)
Definition num_of (c : cell) : pyfloat :=
  match c with
  | CFlt x => x
  | CInt z => Fin (inject_Z z)
  | CBool b => Fin (if b then 1 else 0)
  | CStr _ => NaN
  end.

Definition notnan (x : pyfloat) : bool :=
  match x with NaN => false | _ => true end.

(** The column [df[name]], top to bottom. *)
Definition column (df : DataFrame) (name : string) : list cell :=
  get (columns df) name <$> rows df.

(** [Series.mean()], [Series.min()], [Series.max()]: missing values are
    skipped, and the result is NaN when nothing is left. *)
Definition series_mean (s : list cell) : pyfloat :=
  let xs := List.filter notnan (num_of <$> s) in
  match xs with
  | [] => NaN
  | _ :: _ => fscale (foldl fadd (Fin 0) xs) (1 # Pos.of_nat (length xs))
  end.

Definition fmin (x y : pyfloat) : pyfloat := if fle y x then y else x.
Definition fmax (x y : pyfloat) : pyfloat := if fle x y then y else x.

Definition series_min (s : list cell) : pyfloat :=
  match List.filter notnan (num_of <$> s) with
  | [] => NaN
  | x :: xs => foldl fmin x xs
  end.

Definition series_max (s : list cell) : pyfloat :=
  match List.filter notnan (num_of <$> s) with
  | [] => NaN
  | x :: xs => foldl fmax x xs
  end.

(** [a / b] on two Python integers; [None] is [ZeroDivisionError]. *)
Definition py_truediv (a b : nat) : option pyfloat :=
  match b with
  | O => None
  | S _ => Some (Fin (Qred (Z.of_nat a # Pos.of_nat b)))
  end.

(** ** [calculate_kpis] *)

(** One cell of [Series.str.contains(pat, case=False, na=False)] for a
    pattern without regular-expression operators, in a column that has the
    [.str] accessor (see [has_str] below): a cell that is not a text gives
    a missing value, which [na=False] turns into [False]. *)
Definition str_contains_nocase (pat : string) (c : cell) : bool :=
  match c with
  | CStr s => contains (lower pat) (lower s)
  | _ => false
  end.

Record KPIs : Type := mkKPIs {
  avg_price : pyfloat;
  avg_rating : pyfloat;
  total_books : nat;
  in_stock : nat;
  min_price : pyfloat;
  max_price : pyfloat;
  availability_rate : pyfloat
}.

Definition has_column (df : DataFrame) (name : string) : bool :=
  bool_decide (name ∈ columns df).

Definition is_text (c : cell) : bool :=
  match c with CStr _ => true | _ => false end.

Definition is_bool (c : cell) : bool :=
  match c with CBool _ => true | _ => false end.

(** A number that is not missing. *)
Definition is_number (c : cell) : bool :=
  match c with
  | CInt _ => true
  | CFlt x => notnan x
  | _ => false
  end.

(** [Series.mean()] on a column of a frame: the values are added up, which
    raises [TypeError] as soon as one of them is a text (pandas 2; [None]
    is that exception). *)
Definition mean (s : list cell) : option pyfloat :=
  if existsb is_text s then None else Some (series_mean s).

(** Whether a column has the [.str] accessor.  pandas refuses it
    ([AttributeError]) unless the values can be text: a column with a text
    in it has the accessor, and so has a column that holds booleans next to
    numbers, which is kept as objects; a column of numbers, of booleans or
    of missing cells only has not.  A column without any cell is held as
    objects, as [read_csv] and a row filter on a text column leave it, and
    has the accessor. *)
Definition has_str (s : list cell) : bool :=
  match s with
  | [] => true
  | _ :: _ => existsb is_text s || (existsb is_bool s && existsb is_number s)
  end.

(** [len(df[df[name].str.contains(pat, case=False, na=False)])]; [None] is
    the [AttributeError] of a column without [.str]. *)
Definition count_contains (pat : string) (s : list cell) : option nat :=
  if has_str s then Some (length (List.filter (str_contains_nocase pat) s))
  else None.

(** [None] is an exception escaping from the function. *)
Definition calculate_kpis (df : DataFrame) : option KPIs :=
  avg_price ←
    (if has_column df "Price" then mean (column df "Price") else Some NaN);
  avg_rating ←
    (if has_column df "Rating" then mean (column df "Rating") else Some NaN);
  let total_books := length (rows df) in
  in_stock ←
    (if has_column df "Availability"
     then count_contains "In stock" (column df "Availability")
     else Some 0);
  let min_price := if has_column df "Price" then series_min (column df "Price") else NaN in
  let max_price := if has_column df "Price" then series_max (column df "Price") else NaN in
  availability_rate ←
    (if 0 <? total_books
     then r ← py_truediv in_stock total_books; Some (fscale r 100)
     else Some (Fin 0));
  Some (mkKPIs avg_price avg_rating total_books in_stock min_price max_price
          availability_rate).

(** ** The filter of [main] *)

(** One cell of [Series.isin(values)] for float values and for text
    values. *)
Definition isin_floats (values : list pyfloat) (c : cell) : bool :=
  match c with
  | CStr _ => false
  | _ => existsb (fsame (num_of c)) values
  end.

Definition isin_strings (values : list string) (c : cell) : bool :=
  match c with
  | CStr s => bool_decide (s ∈ values)
  | _ => false
  end.

Record selection : Type := mkSelection {
  selected_ratings : list pyfloat;
  price_range : pyfloat * pyfloat;
  selected_availability : list string
}.

(** The row mask of [filtered_df]. *)
Definition selected (cols : list string) (sel : selection) (row : list cell) : bool :=
  isin_floats (selected_ratings sel) (get cols "Rating" row)
  && fle (fst (price_range sel)) (num_of (get cols "Price" row))
  && fle (num_of (get cols "Price" row)) (snd (price_range sel))
  && isin_strings (selected_availability sel) (get cols "Availability" row).

Definition filter_df (df : DataFrame) (sel : selection) : DataFrame :=
  mkDataFrame (columns df) (List.filter (selected (columns df) sel) (rows df)).

(** ** The crawler: [clean_price] and the loop body of [scrape_books.py] *)

(** A [str] of the crawler, as its code points. *)
Definition ustring : Type := list N.

(** A code point without UTF-8 encoding: a surrogate, U+D800..U+DFFF. *)
Definition is_surrogate (n : N) : bool := ((55296 <=? n) && (n <=? 57343))%N.

(** [s.encode('utf-8', 'ignore').decode('utf-8')] *)
Definition encode_ignore_decode (s : ustring) : ustring :=
  List.filter (λ n, negb (is_surrogate n)) s.

(** [str.isspace] on any code point. *)
Definition u_isspace (n : N) : bool :=
  (((9 <=? n) && (n <=? 13)) || ((28 <=? n) && (n <=? 32))
   || (n =? 133) || (n =? 160) || (n =? 5760)
   || ((8192 <=? n) && (n <=? 8202)) || (n =? 8232) || (n =? 8233)
   || (n =? 8239) || (n =? 8287) || (n =? 12288))%N.

Fixpoint u_lstrip (s : ustring) : ustring :=
  match s with
  | [] => []
  | n :: s' => if u_isspace n then u_lstrip s' else s
  end.

Definition u_strip (s : ustring) : ustring := rev (u_lstrip (rev (u_lstrip s))).

(** The class [[0-9.]] of the pattern [[^0-9.]]. *)
Definition is_price_char (n : N) : bool :=
  (((48 <=? n) && (n <=? 57)) || (n =? 46))%N.

(** [re.sub(r'[^0-9.]', '', s)]; what is left fits in a [string]. *)
Definition keep_price_chars (s : ustring) : string :=
  String.string_of_list_ascii (ascii_of_N <$> List.filter is_price_char s).

(** What the crawler prints. *)
Inductive event : Type :=
  | WarnPrice (price_str : string)
  | ErrorBook (page : nat).

(** [clean_price(price_str)]: the float returned and what was printed. *)
Definition clean_price (price_str : ustring) : pyfloat * list event :=
  let price_str1 := u_strip (encode_ignore_decode price_str) in
  let price_str2 := keep_price_chars price_str1 in
  match py_float price_str2 with
  | Some x => (x, [])
  | None => (Fin 0, [WarnPrice price_str2])
  end.

(** [rating_map.get(rating_word, None)] *)
Definition rating_map_get (rating_word : string) : option Z :=
  if bool_decide (rating_word = "One") then Some 1%Z
  else if bool_decide (rating_word = "Two") then Some 2%Z
  else if bool_decide (rating_word = "Three") then Some 3%Z
  else if bool_decide (rating_word = "Four") then Some 4%Z
  else if bool_decide (rating_word = "Five") then Some 5%Z
  else None.

Record BookRecord : Type := mkBookRecord {
  b_title : ustring;
  b_price : pyfloat;
  b_rating : option Z;
  b_availability : ustring;
  b_category : ustring;
  b_description : ustring
}.

(** What the page and the detail page give for one book: the six raw
    values, or an exception raised while getting them. *)
Inductive extraction : Type :=
  | Extracted (title price_raw : ustring) (rating_word : string)
              (availability category description : ustring)
  | Failed.

(** The body of the loop over [book_elements]: [books] grows by one record
    unless the extraction raised. *)
Definition scrape_book (page : nat) (books : list BookRecord) (e : extraction)
  : list BookRecord * list event :=
  match e with
  | Extracted title price_raw rating_word availability category description =>
      let '(price, printed) := clean_price price_raw in
      (books ++ [mkBookRecord title price (rating_map_get rating_word)
                   availability category description],
       printed)
  | Failed => (books, [ErrorBook page])
  end.

(** ** Vocabulary of the statements *)

Fixpoint forall_chars (P : ascii → bool) (s : string) : bool :=
  match s with
  | EmptyString => true
  | String c s' => P c && forall_chars P s'
  end.

(** A digit or the point. *)
Definition is_price_ascii (c : ascii) : bool :=
  is_digit c || bool_decide (c = "."%char).

(** A float that is a number not below zero: neither NaN nor negative. *)
Definition nonneg_float (x : pyfloat) : Prop := ∃ q : Q, x = Fin q ∧ (0 <= q)%Q.

(** The rating words of [word_to_num] and their numbers. *)
Definition rating_words : list (string * Z) :=
  [("one", 1%Z); ("two", 2%Z); ("three", 3%Z); ("four", 4%Z); ("five", 5%Z)].


(** The frame and the selection of the filter scenario. *)
Definition scenario_frame : DataFrame :=
  mkDataFrame ["Title"; "Price"; "Rating"; "Availability"]
    [ [CStr "first"; CFlt (Fin 10); CFlt (Fin 3); CStr "In stock"];
      [CStr "second"; CFlt (Fin 50); CFlt (Fin 5); CStr "Out of stock"] ].

Definition scenario_selection : selection :=
  mkSelection [Fin 3] (Fin 0, Fin 100) ["In stock"; "Out of stock"].

(** The canonical fields in their order of precedence, each with the
    keywords looked for in a lower-cased header. *)
Definition keywords : list (string * list string) :=
  [("Title", ["title"]); ("Price", ["price"]); ("Rating", ["rating"]);
   ("Availability", ["availability"; "avail"])].

Definition has_keyword (col : string) (entry : string * list string) : bool :=
  existsb (λ kw, contains kw (lower col)) (snd entry).

(** The first field, in precedence order, whose keyword [col] contains and
    that has no source column yet. *)
Definition first_free (column_mapping : gmap string string) (col : string)
  : option string :=
  fst <$> List.find
            (λ entry, has_keyword col entry
                      && negb (in_values (fst entry) column_mapping))
            keywords.

(** Following the spec's words: the first field, in precedence order, whose
    keyword [col] contains decides the destination of [col], and a column
    whose field already has a source is ignored. *)
Definition first_match (col : string) : option string :=
  fst <$> List.find (has_keyword col) keywords.

Definition resolve_column_claimed (column_mapping : gmap string string)
  (col : string) : gmap string string :=
  match first_match col with
  | Some field =>
      if in_values field column_mapping then column_mapping
      else <[col := field]> column_mapping
  | None => column_mapping
  end.

(** No field is ever the value of two keys. *)
Definition one_source (m : gmap string string) : Prop :=
  ∀ k1 k2 v, m !! k1 = Some v → m !! k2 = Some v → k1 = k2.

(** The Rating cell that [load_data] writes back. *)
Definition rating_cell (c : cell) : cell := CFlt (default NaN (clean_rating c)).

(** The three column assignments of [load_data], seen on one row. *)
Definition normalize_row (cols : list string) (row : list cell) : list cell :=
  match index_of "Price" cols, index_of "Rating" cols,
        index_of "Availability" cols with
  | Some iP, Some iR, Some iA =>
      alter clean_availability iA
        (alter rating_cell iR (alter clean_price_cell iP row))
  | _, _, _ => row
  end.

(** The four constraints on a row of the canonical frame, as the spec
    states them. *)
Definition claimed_canonical_row (cols : list string) (row : list cell) : Prop :=
  (∃ t, get cols "Title" row = CStr t ∧ t ≠ "")
  ∧ (∃ p, get cols "Price" row = CFlt (Fin p) ∧ (0 <= p)%Q)
  ∧ (∃ r n, get cols "Rating" row = CFlt (Fin r)
            ∧ (r == inject_Z n)%Q ∧ (1 <= n <= 5)%Z)
  ∧ (∃ a, get cols "Availability" row = CStr a ∧ a ≠ "").

(** The pound sign, U+00A3. *)
Definition pound : string := String (ascii_of_N 163) EmptyString.

(** A table as the crawler's file reads: the second line has a negative
    price, a rating of 7 and a blank availability. *)
Definition odd_values_frame : DataFrame :=
  mkDataFrame ["Title"; "Price (" +:+ pound +:+ ")"; "Rating"; "Availability"]
    [ [CStr "A Light in the Attic"; CStr (pound +:+ "51.77"); CStr "Three";
       CStr "In stock"];
      [CStr "Soumission"; CStr "-5"; CStr "7"; CStr " "] ].

(** A table whose second line has no Availability. *)
Definition null_availability_frame : DataFrame :=
  mkDataFrame ["Title"; "Price (" +:+ pound +:+ ")"; "Rating"; "Availability"]
    [ [CStr "A Light in the Attic"; CStr (pound +:+ "51.77"); CStr "Three";
       CStr "In stock"];
      [CStr "Tipping the Velvet"; CStr (pound +:+ "53.74"); CStr "One"; missing] ].

(** A number with at most 17 decimals. *)
Definition short_decimal (q : Q) : Prop :=
  ∃ m : Z, (q == m # 100000000000000000)%Q.

(** A sign, a digit or the point: the characters of a float in positional
    notation. *)
Definition is_number_ascii (c : ascii) : bool :=
  is_price_ascii c || bool_decide (c = "-"%char).

(** A row of a frame with the canonical header whose Rating is held as an
    integer: a Title that is not missing, a Price with at most 17 decimals
    in the range of doubles, a Rating that is a whole number not below
    zero, a trimmed Availability. *)
Definition integer_rated_row (row : list cell) : Prop :=
  ∃ t p n a,
    row = [t; CFlt (Fin p); CInt n; CStr a]
    ∧ isnull t = false ∧ short_decimal p ∧ overflows p = false
    ∧ (0 <= n)%Z ∧ strip a = a.

(** The same row with its Price in lowest terms and its Rating as a
    float. *)
Definition as_float_ratings (row : list cell) : list cell :=
  match row with
  | [t; CFlt (Fin p); CInt n; a] =>
      [t; CFlt (Fin (Qred p)); CFlt (Fin (inject_Z n)); a]
  | _ => row
  end.

(** Two rows under the canonical header that carry the same Title, the same
    Availability and, as numbers, the same Price and the same Rating. *)
Definition same_values (row row' : list cell) : Prop :=
  get required_cols "Title" row' = get required_cols "Title" row
  ∧ fsame (num_of (get required_cols "Price" row'))
          (num_of (get required_cols "Price" row)) = true
  ∧ fsame (num_of (get required_cols "Rating" row'))
          (num_of (get required_cols "Rating" row)) = true
  ∧ get required_cols "Availability" row' = get required_cols "Availability" row.

(** A header that has the keyword of one field and of no other. *)
Definition names_only (entry : string * list string) (col : string) : Prop :=
  has_keyword col entry = true
  ∧ ∀ other, other ∈ keywords → other ≠ entry → has_keyword col other = false.

(** ** The filter widgets of [main] *)

(** [Series.dropna()] *)
Definition series_dropna (s : list cell) : list cell :=
  List.filter (λ c, negb (isnull c)) s.

(** [Series.unique()]: the values in the order of their first occurrence. *)
Fixpoint unique_from {A : Type} (same : A → A → bool) (seen l : list A) : list A :=
  match l with
  | [] => []
  | x :: l' =>
      if existsb (same x) seen then unique_from same seen l'
      else x :: unique_from same (x :: seen) l'
  end.

Definition unique {A : Type} (same : A → A → bool) (l : list A) : list A :=
  unique_from same [] l.

(** [x < y] on floats. *)
Definition flt (x y : pyfloat) : bool := fle x y && negb (fle y x).

(** [sorted(xs)]: a stable sort by [<]. *)
Fixpoint insert_sorted (x : pyfloat) (l : list pyfloat) : list pyfloat :=
  match l with
  | [] => [x]
  | y :: l' => if flt y x then y :: insert_sorted x l' else x :: y :: l'
  end.

Definition py_sorted (xs : list pyfloat) : list pyfloat := foldr insert_sorted [] xs.

(** The text of a text cell. *)
Definition cell_text (c : cell) : option string :=
  match c with CStr s => Some s | _ => None end.

(** [rating_options], the bounds of the price slider and [avail_options].
    (The Availability column is text after [load_data]; a cell that is not
    a text has no place in a list of texts and is left out.) *)
Definition rating_options (df : DataFrame) : list pyfloat :=
  py_sorted (unique fsame (num_of <$> series_dropna (column df "Rating"))).

Definition price_bounds (df : DataFrame) : pyfloat * pyfloat :=
  (series_min (column df "Price"), series_max (column df "Price")).

Definition avail_options (df : DataFrame) : list string :=
  unique String.eqb (omap cell_text (column df "Availability")).

(** The selection that the three widgets are given as their default: all
    the rating options, the full price range, all the availabilities. *)
Definition default_selection (df : DataFrame) : selection :=
  mkSelection (rating_options df) (price_bounds df) (avail_options df).

(** ** The availability chart and the responsive sizes *)

(** The colour of one bar of [create_availability_chart]. *)
Definition availability_color (x : string) : string :=
  if contains "stock" (lower x) then "#28a745" else "#dc3545".

(** [int(a / b)] for two integers, [b] positive: Python divides as floats
    and [int] cuts the fraction off, towards zero. *)
Definition int_div (a b : Z) : Z := Z.quot a b.

(** The sizes computed from the screen width and height.  A screen size is
    a C [int]; the clamps absorb the rounding of the float division, and
    multiplying by 0.25 is exact. *)
Definition FONT_SIZE_BASE (SCREEN_W : Z) : Z :=
  Z.max 12 (Z.min 16 (int_div SCREEN_W 100)).

Definition FONT_SIZE_LABEL (SCREEN_W : Z) : Z := FONT_SIZE_BASE SCREEN_W - 2.

Definition FONT_SIZE_KPI (SCREEN_W : Z) : Z :=
  Z.max 20 (Z.min 28 (int_div SCREEN_W 70)).

Definition FONT_SIZE_HEADER (SCREEN_W : Z) : Z :=
  Z.max 24 (Z.min 32 (int_div SCREEN_W 60)).

Definition TABLE_HEIGHT (SCREEN_H : Z) : Z := Z.min (int_div SCREEN_H 4) 250.

(** The code points of a text. *)
Definition codes (s : string) : ustring := code <$> String.list_ascii_of_string s.

(** A character of a price as the site writes it: a digit, the point, or
    one of the three signs that [load_data] removes. *)
Definition is_priced_ascii (c : ascii) : bool := is_price_ascii c || is_currency c.

(** What fetching and parsing one catalogue page gives: the book elements
    found, each with what its extraction gives, or an exception raised
    before the loop over them. *)
Inductive page_fetch : Type :=
  | Fetched (book_elements : list extraction)
  | FetchFailed.

(** The [books] list and the seconds slept so far. *)
Record crawl_state : Type := mkCrawl {
  cs_books : list BookRecord;
  cs_slept : nat
}.

(** The loop over [book_elements] of one page, as it changes [books]. *)
Definition scrape_elements (page : nat) (books : list BookRecord)
    (book_elements : list extraction) : list BookRecord :=
  foldl (λ bs e, fst (scrape_book page bs e)) books book_elements.

(** The body of the loop over the pages: a page that is fetched has its
    books scraped and is followed by [time.sleep(1)]; a page whose fetch
    raises is skipped. *)
Definition scrape_page (site : nat → page_fetch) (st : crawl_state) (page : nat)
  : crawl_state :=
  match site page with
  | Fetched book_elements =>
      mkCrawl (scrape_elements page (cs_books st) book_elements) (S (cs_slept st))
  | FetchFailed => st
  end.

(** [for page in range(1, 51)], from the empty [books]. *)
Definition crawl (site : nat → page_fetch) : crawl_state :=
  foldl (scrape_page site) (mkCrawl [] 0) (seq 1 50).

(** The record that an extraction leads to, if it did not raise. *)
Definition record_of (e : extraction) : option BookRecord :=
  match e with
  | Extracted title price_raw rating_word availability category description =>
      Some (mkBookRecord title (fst (clean_price price_raw))
              (rating_map_get rating_word) availability category description)
  | Failed => None
  end.

Definition page_records (f : page_fetch) : list BookRecord :=
  match f with
  | Fetched book_elements => omap record_of book_elements
  | FetchFailed => []
  end.

Definition is_fetched (f : page_fetch) : bool :=
  match f with Fetched _ => true | FetchFailed => false end.

(** ** Sample inputs *)

(** A table as the crawler writes it: its six columns, prices as floats and
    ratings as whole numbers. *)
Definition crawled_frame : DataFrame :=
  mkDataFrame
    ["Title"; "Price (" +:+ pound +:+ ")"; "Rating"; "Availability"; "Category";
     "Description"]
    [ [CStr "A Light in the Attic"; CFlt (Fin (5177 # 100)); CInt 3;
       CStr "In stock"; CStr "Poetry"; CStr "No description available"];
      [CStr "Tipping the Velvet"; CFlt (Fin (5374 # 100)); CInt 1;
       CStr " Out of stock "; CStr "Unknown"; CStr "No description available"] ].

(** A site whose first page has one book that can be read and one that
    cannot, and whose other pages cannot be fetched. *)
Definition sample_site (page : nat) : page_fetch :=
  match page with
  | 1 => Fetched [Extracted [65%N] [163; 53; 49; 46; 55; 55]%N "Three"
                    [73; 110]%N [80%N] [78%N];
                  Failed]
  | _ => FetchFailed
  end.

(** What [load_data] makes of [crawled_frame]. *)
Definition crawled_loaded : DataFrame :=
  mkDataFrame
    ["Title"; "Price"; "Rating"; "Availability"; "Category"; "Description"]
    [ [CStr "A Light in the Attic"; CFlt (Fin (5177 # 100)); CFlt (Fin 3);
       CStr "In stock"; CStr "Poetry"; CStr "No description available"];
      [CStr "Tipping the Velvet"; CFlt (Fin (2687 # 50)); CFlt (Fin 1);
       CStr "Out of stock"; CStr "Unknown"; CStr "No description available"] ].

(** The record that the crawl of [sample_site] collects. *)
Definition sample_record : BookRecord :=
  mkBookRecord [65%N] (Fin (5177 # 100)) (Some 3%Z) [73; 110]%N [80%N] [78%N].

(** A frame as [calculate_kpis] is given it in [main]: no text in the Price
    and Rating columns, texts only in the Availability column. *)
Definition kpi_ready (df : DataFrame) : Prop :=
  existsb is_text (column df "Price") = false
  ∧ existsb is_text (column df "Rating") = false
  ∧ forallb is_text (column df "Availability") = true.

(* ===================================================================== *)
(** * Part II: properties *)
(* ===================================================================== *)

Ltac ascii_cases c := destruct c as [[] [] [] [] [] [] [] []].

(** ** Characters *)

Lemma price_ascii_not_space c : is_price_ascii c = true → py_isspace c = false.
Proof. ascii_cases c; vm_compute; congruence. Qed.

Lemma price_ascii_not_underscore c :
  is_price_ascii c = true → bool_decide (c = "_"%char) = false.
Proof. ascii_cases c; vm_compute; congruence. Qed.

Lemma price_ascii_lower c : is_price_ascii c = true → lower_char c = c.
Proof. ascii_cases c; vm_compute; congruence. Qed.

Lemma price_ascii_not_sign c :
  is_price_ascii c = true → c ≠ "-"%char ∧ c ≠ "+"%char.
Proof. ascii_cases c; vm_compute; intros; split; congruence. Qed.

Lemma price_ascii_not_letter c :
  is_price_ascii c = true → c ≠ "i"%char ∧ c ≠ "n"%char.
Proof. ascii_cases c; vm_compute; intros; split; congruence. Qed.

Lemma digit_is_price_ascii c : is_digit c = true → is_price_ascii c = true.
Proof. unfold is_price_ascii. intros ->. reflexivity. Qed.

Lemma digit_not_space c : is_digit c = true → py_isspace c = false.
Proof. intros H. apply price_ascii_not_space, digit_is_price_ascii, H. Qed.

(** ** Strings whose characters all satisfy a test *)

Lemma forall_chars_impl (P R : ascii → bool) s :
  (∀ c, P c = true → R c = true) →
  forall_chars P s = true → forall_chars R s = true.
Proof.
  intros HPR. induction s as [|c s IH]; simpl; [done|].
  rewrite !andb_true_iff. intros [Hc Hs]. split; [apply HPR, Hc | apply IH, Hs].
Qed.

Lemma forall_chars_app P s t :
  forall_chars P (s +:+ t) = forall_chars P s && forall_chars P t.
Proof.
  induction s as [|c s IH]; simpl; [done|]. rewrite IH. apply andb_assoc.
Qed.

Lemma all_digits_forall s : all_digits s = forall_chars is_digit s.
Proof. induction s as [|c s IH]; simpl; [done|]. by rewrite IH. Qed.

Lemma lstrip_no_space s :
  forall_chars (λ c, negb (py_isspace c)) s = true → lstrip s = s.
Proof.
  destruct s as [|c s]; simpl; [done|].
  rewrite andb_true_iff, negb_true_iff. intros [-> _]. reflexivity.
Qed.

Lemma rstrip_no_space s :
  forall_chars (λ c, negb (py_isspace c)) s = true → rstrip s = s.
Proof.
  induction s as [|c s IH]; simpl; [done|].
  rewrite andb_true_iff, negb_true_iff. intros [-> Hs].
  rewrite (IH Hs). reflexivity.
Qed.

Lemma strip_no_space s :
  forall_chars (λ c, negb (py_isspace c)) s = true → strip s = s.
Proof.
  intros H. unfold strip. rewrite (lstrip_no_space s H). apply rstrip_no_space, H.
Qed.

Lemma remove_chars_none cls s :
  forall_chars (λ c, negb (cls c)) s = true → remove_chars cls s = s.
Proof.
  induction s as [|c s IH]; simpl; [done|].
  rewrite andb_true_iff, negb_true_iff. intros [-> Hs]. by rewrite (IH Hs).
Qed.

Lemma underscores_ok_none b s :
  forall_chars (λ c, negb (bool_decide (c = "_"%char))) s = true →
  underscores_ok b s = true.
Proof.
  revert b. induction s as [|c s IH]; intros b; simpl; [done|].
  rewrite andb_true_iff, negb_true_iff. intros [-> Hs]. apply IH, Hs.
Qed.

(** ** The decimal reader *)

Lemma read_sign_other c s :
  c ≠ "-"%char → c ≠ "+"%char → read_sign (String c s) = (false, String c s).
Proof. intros Hm Hp. ascii_cases c; try reflexivity; congruence. Qed.

Lemma decimal_value_nonneg m k e : (0 <= decimal_value false m k e)%Q.
Proof.
  unfold decimal_value. rewrite Qred_correct.
  apply Qmult_le_0_compat.
  - unfold Qle. simpl. lia.
  - apply Qpower_0_le. unfold Qle. simpl. lia.
Qed.

Lemma parse_decimal_unsigned s q :
  fst (read_sign s) = false → parse_decimal s = Some q → (0 <= q)%Q.
Proof.
  unfold parse_decimal. destruct (read_sign s) as [neg s1]. simpl. intros ->.
  destruct (digits_prefix s1) as [ip s2].
  destruct (match s2 with
            | String "." r => digits_prefix r
            | _ => (EmptyString, s2)
            end) as [fp s3].
  destruct (str_empty ip && str_empty fp); [done|].
  destruct (parse_exponent s3) as [e|]; [|done].
  intros [= <-]. apply decimal_value_nonneg.
Qed.

(** On a text of digits and points Python's [float] is the decimal reader:
    no blank to strip, no underscore, no sign, no spelled-out infinity or
    NaN. *)
Lemma py_float_price_text t :
  forall_chars is_price_ascii t = true → py_float t = Fin <$> parse_decimal t.
Proof.
  intros Ht. unfold py_float.
  rewrite strip_no_space; cycle 1.
  { eapply forall_chars_impl; [|exact Ht].
    intros c Hc. by rewrite (price_ascii_not_space c Hc). }
  rewrite underscores_ok_none; cycle 1.
  { eapply forall_chars_impl; [|exact Ht].
    intros c Hc. by rewrite (price_ascii_not_underscore c Hc). }
  rewrite remove_chars_none; cycle 1.
  { eapply forall_chars_impl; [|exact Ht].
    intros c Hc. by rewrite (price_ascii_not_underscore c Hc). }
  destruct t as [|c t]; [reflexivity|].
  simpl in Ht. apply andb_true_iff in Ht as [Hc _].
  destruct (price_ascii_not_sign c Hc) as [Hm Hp].
  destruct (price_ascii_not_letter c Hc) as [Hi Hn].
  rewrite (read_sign_other c t Hm Hp). simpl lower.
  rewrite (price_ascii_lower c Hc).
  rewrite !bool_decide_eq_false_2; [reflexivity | | |]; intros [= ? _]; done.
Qed.

Lemma price_text_unsigned t :
  forall_chars is_price_ascii t = true → fst (read_sign t) = false.
Proof.
  destruct t as [|c t]; [reflexivity|]. simpl forall_chars.
  rewrite andb_true_iff. intros [Hc _].
  destruct (price_ascii_not_sign c Hc) as [Hm Hp].
  by rewrite (read_sign_other c t Hm Hp).
Qed.

(** ** The crawler's price parser *)

Lemma price_char_ascii n :
  is_price_char n = true → is_price_ascii (ascii_of_N n) = true.
Proof.
  intros H. unfold is_price_ascii, is_digit, code.
  assert (n < 256)%N as Hlt.
  { unfold is_price_char in H.
    apply orb_true_iff in H as [H|H].
    - apply andb_true_iff in H as [_ H]. apply N.leb_le in H. lia.
    - apply N.eqb_eq in H. lia. }
  rewrite (N_ascii_embedding n Hlt).
  unfold is_price_char in H. apply orb_true_iff in H as [H|H].
  - by rewrite H.
  - apply N.eqb_eq in H. subst n. reflexivity.
Qed.

Lemma forall_chars_of_list P (l : list ascii) :
  forallb P l = true → forall_chars P (String.string_of_list_ascii l) = true.
Proof.
  induction l as [|c l IH]; simpl; [done|].
  rewrite !andb_true_iff. intros [Hc Hl]. split; [exact Hc | apply IH, Hl].
Qed.

Lemma keep_price_chars_text s :
  forall_chars is_price_ascii (keep_price_chars s) = true.
Proof.
  unfold keep_price_chars. apply forall_chars_of_list.
  apply forallb_forall. intros c Hc.
  apply in_map_iff in Hc as (n & <- & Hn).
  apply filter_In in Hn as [_ Hn]. apply price_char_ascii, Hn.
Qed.

Lemma price_char_not_space n : is_price_char n = true → u_isspace n = false.
Proof.
  unfold is_price_char, u_isspace. intros H.
  apply orb_true_iff in H as [H|H].
  - apply andb_true_iff in H as [H1 H2].
    apply N.leb_le in H1. apply N.leb_le in H2.
    repeat match goal with
           | |- context [(?a <=? n)%N] => destruct (N.leb_spec a n); try lia
           | |- context [(n <=? ?a)%N] => destruct (N.leb_spec n a); try lia
           | |- context [(n =? ?a)%N] => destruct (N.eqb_spec n a); try lia
           end; reflexivity.
  - apply N.eqb_eq in H. subst n. reflexivity.
Qed.

Lemma price_char_not_surrogate n : is_price_char n = true → is_surrogate n = false.
Proof.
  unfold is_price_char, is_surrogate. intros H.
  apply andb_false_iff. left. apply N.leb_gt.
  apply orb_true_iff in H as [H|H].
  - apply andb_true_iff in H as [_ H]. apply N.leb_le in H. lia.
  - apply N.eqb_eq in H. lia.
Qed.

Lemma filter_price_u_lstrip s :
  List.filter is_price_char (u_lstrip s) = List.filter is_price_char s.
Proof.
  induction s as [|n s IH]; simpl; [done|].
  destruct (u_isspace n) eqn:Hsp; [|reflexivity].
  rewrite IH. destruct (is_price_char n) eqn:Hp; [|reflexivity].
  rewrite (price_char_not_space n Hp) in Hsp. discriminate.
Qed.

Lemma filter_price_u_strip s :
  List.filter is_price_char (u_strip s) = List.filter is_price_char s.
Proof.
  unfold u_strip.
  rewrite filter_rev, filter_price_u_lstrip, filter_rev, rev_involutive.
  apply filter_price_u_lstrip.
Qed.

Lemma filter_price_encodable s :
  List.filter is_price_char (encode_ignore_decode s) = List.filter is_price_char s.
Proof.
  unfold encode_ignore_decode.
  induction s as [|n s IH]; simpl; [done|].
  destruct (is_surrogate n) eqn:Hs; simpl.
  - rewrite IH. destruct (is_price_char n) eqn:Hp; [|reflexivity].
    rewrite (price_char_not_surrogate n Hp) in Hs. discriminate.
  - by rewrite IH.
Qed.

(** What reaches [float] is the input with everything but digits and points
    taken out; the two earlier steps remove nothing more. *)
Lemma clean_price_text price_str :
  keep_price_chars (u_strip (encode_ignore_decode price_str))
  = keep_price_chars price_str.
Proof.
  unfold keep_price_chars.
  by rewrite filter_price_u_strip, filter_price_encodable.
Qed.

Lemma clean_price_parsed price_str q :
  parse_decimal (keep_price_chars price_str) = Some q →
  clean_price price_str = (Fin q, []).
Proof.
  intros Hq. unfold clean_price. rewrite clean_price_text.
  rewrite (py_float_price_text _ (keep_price_chars_text price_str)), Hq.
  reflexivity.
Qed.

Lemma clean_price_failed price_str :
  parse_decimal (keep_price_chars price_str) = None →
  clean_price price_str = (Fin 0, [WarnPrice (keep_price_chars price_str)]).
Proof.
  intros Hq. unfold clean_price. rewrite clean_price_text.
  rewrite (py_float_price_text _ (keep_price_chars_text price_str)), Hq.
  reflexivity.
Qed.

Lemma clean_price_nonneg price_str : nonneg_float (fst (clean_price price_str)).
Proof.
  destruct (parse_decimal (keep_price_chars price_str)) as [q|] eqn:Hq.
  - rewrite (clean_price_parsed _ _ Hq). exists q. split; [done|].
    eapply parse_decimal_unsigned; [|exact Hq].
    apply price_text_unsigned, keep_price_chars_text.
  - rewrite (clean_price_failed _ Hq). exists 0%Q. split; [done|].
    unfold Qle. simpl. lia.
Qed.

Lemma scrape_book_extracted page books title price_raw rating_word
    availability category description :
  scrape_book page books
    (Extracted title price_raw rating_word availability category description)
  = (books ++ [mkBookRecord title (fst (clean_price price_raw))
                 (rating_map_get rating_word) availability category description],
     snd (clean_price price_raw)).
Proof. unfold scrape_book. by destruct (clean_price price_raw). Qed.


(** Claim C10.  [clean_price] returns for every text, whatever its
    shape: no exception leaves it, and what it returns is a number that is
    not below zero, never NaN and never negative.  Every record the loop
    body appends carries such a price. *)
Theorem C10_clean_price_nonneg (price_str : ustring) :
  nonneg_float (fst (clean_price price_str))
  ∧ ∀ page books e,
      ∃ new, fst (scrape_book page books e) = books ++ new
             ∧ Forall (λ r, nonneg_float (b_price r)) new.
Proof.
  split; [apply clean_price_nonneg|].
  intros page books [title price_raw rating_word availability category description|].
  - rewrite scrape_book_extracted. simpl. eexists. split; [reflexivity|].
    constructor; [|constructor]. apply clean_price_nonneg.
  - exists []. simpl. by rewrite app_nil_r.
Qed.

(** ** Reading digits *)

Lemma append_cons c s t : String c s +:+ t = String c (s +:+ t).
Proof. reflexivity. Qed.

Lemma append_empty_r s : s +:+ "" = s.
Proof. induction s as [|c s IH]; [done|]. by rewrite append_cons, IH. Qed.

Lemma length_append s t :
  String.length (s +:+ t) = String.length s + String.length t.
Proof. induction s as [|c s IH]; [done|]. rewrite append_cons. simpl. by rewrite IH. Qed.

(** A run of digits followed by something that does not start with a digit
    is split exactly there. *)
Lemma digits_prefix_app d r :
  all_digits d = true →
  match r with String c _ => is_digit c = false | EmptyString => True end →
  digits_prefix (d +:+ r) = (d, r).
Proof.
  intros Hd Hr. induction d as [|c d IH].
  - destruct r as [|c r]; [reflexivity|]. change ("" +:+ String c r) with (String c r).
    simpl. by rewrite Hr.
  - simpl in Hd. apply andb_true_iff in Hd as [Hc Hd].
    rewrite append_cons. simpl. rewrite Hc, (IH Hd). reflexivity.
Qed.

Lemma digits_prefix_all d : all_digits d = true → digits_prefix d = (d, "").
Proof.
  intros Hd. rewrite <- (append_empty_r d) at 1. by apply digits_prefix_app.
Qed.

Lemma digits_value_from_app acc d1 d2 :
  digits_value_from acc (d1 +:+ d2)
  = digits_value_from (digits_value_from acc d1) d2.
Proof.
  revert acc. induction d1 as [|c d1 IH]; intros acc; [done|].
  rewrite append_cons. simpl. apply IH.
Qed.

Lemma digits_value_from_acc acc d :
  digits_value_from acc d
  = (acc * 10 ^ N.of_nat (String.length d) + digits_value d)%N.
Proof.
  unfold digits_value. revert acc.
  induction d as [|c d IH]; intros acc.
  - simpl. lia.
  - cbn [digits_value_from String.length].
    rewrite (IH (10 * acc + digit_val c)%N), (IH (10 * 0 + digit_val c)%N).
    rewrite Nat2N.inj_succ, N.pow_succ_r'. lia.
Qed.

Lemma digits_value_app d1 d2 :
  digits_value (d1 +:+ d2)
  = (digits_value d1 * 10 ^ N.of_nat (String.length d2) + digits_value d2)%N.
Proof.
  unfold digits_value at 1. rewrite digits_value_from_app.
  apply digits_value_from_acc.
Qed.

Lemma Qred_inject_Z z : Qred (inject_Z z) = inject_Z z.
Proof.
  unfold Qred, inject_Z. simpl.
  pose proof (Z.ggcd_gcd z 1) as Hg.
  pose proof (Z.ggcd_correct_divisors z 1) as Hd.
  destruct (Z.ggcd z 1) as [g [aa bb]]. simpl in Hg. destruct Hd as [Ha Hb].
  rewrite Z.gcd_1_r in Hg. subst g.
  rewrite Z.mul_1_l in Ha, Hb. by subst aa bb.
Qed.

Lemma decimal_value_integer m :
  decimal_value false m 0 0 = inject_Z (Z.of_N m).
Proof.
  unfold decimal_value. etransitivity; [|apply Qred_inject_Z].
  apply Qred_complete.
  change ((10 # 1) ^ (0 - Z.of_nat 0))%Q with 1%Q. apply Qmult_1_r.
Qed.

Lemma parse_decimal_digits s :
  match_digits s = true →
  parse_decimal s = Some (inject_Z (Z.of_N (digits_value s))).
Proof.
  unfold match_digits. rewrite andb_true_iff, negb_true_iff. intros [Hne Hd].
  unfold parse_decimal.
  assert (read_sign s = (false, s)) as ->.
  { destruct s as [|c s]; [done|]. simpl in Hd.
    apply andb_true_iff in Hd as [Hc _].
    destruct (price_ascii_not_sign c (digit_is_price_ascii c Hc)).
    by apply read_sign_other. }
  rewrite (digits_prefix_all s Hd). rewrite Hne. simpl.
  by rewrite append_empty_r, decimal_value_integer.
Qed.

(** [float(s)] on a string that [^\d+$] accepts never raises and yields the
    number the digits spell. *)
Lemma py_float_digits s :
  match_digits s = true →
  py_float s = Some (Fin (inject_Z (Z.of_N (digits_value s)))).
Proof.
  intros Hs. rewrite py_float_price_text.
  - by rewrite (parse_decimal_digits s Hs).
  - unfold match_digits in Hs. apply andb_true_iff in Hs as [_ Hd].
    rewrite all_digits_forall in Hd.
    eapply forall_chars_impl; [|exact Hd]. apply digit_is_price_ascii.
Qed.

(** ** [clean_rating] *)

Lemma digit_lower c : is_digit c = true → lower_char c = c.
Proof. intros H. apply price_ascii_lower, digit_is_price_ascii, H. Qed.

Lemma all_digits_lower s : all_digits s = true → lower s = s.
Proof.
  induction s as [|c s IH]; simpl; [done|].
  rewrite andb_true_iff. intros [Hc Hs]. by rewrite (digit_lower c Hc), (IH Hs).
Qed.

Lemma rating_word_not_digits s w n :
  (w, n) ∈ rating_words → lower s = w → match_digits s = false.
Proof.
  intros Hw Hs. destruct (match_digits s) eqn:Hd; [|done].
  assert (lower s = s) as Hl.
  { apply all_digits_lower. unfold match_digits in Hd.
    by apply andb_true_iff in Hd as [_ ?]. }
  rewrite Hl in Hs. subst s.
  unfold rating_words in Hw. rewrite !elem_of_cons, elem_of_nil in Hw.
  destruct Hw as [Hw|[Hw|[Hw|[Hw|[Hw|[]]]]]]; inversion Hw; subst; discriminate Hd.
Qed.

Lemma word_to_num_spec w n : word_to_num w = Some n ↔ (w, n) ∈ rating_words.
Proof.
  unfold word_to_num, rating_words.
  rewrite !elem_of_cons, elem_of_nil. split.
  - repeat case_bool_decide; intros [= <-]; subst; tauto.
  - intros [H|[H|[H|[H|[H|[]]]]]]; inversion H; subst; reflexivity.
Qed.

Lemma clean_rating_defined x : ∃ r, clean_rating x = Some r.
Proof.
  unfold clean_rating. destruct (isnull x); [by eexists|].
  destruct (match_digits (strip (py_str x))) eqn:Hd.
  - rewrite (py_float_digits _ Hd). by eexists.
  - destruct (word_to_num _); by eexists.
Qed.

(** Claim C5.  On every cell [clean_rating] returns without raising:
    NaN for a missing cell; for any other cell, with [s] its trimmed text,
    the number that [s] spells when [s] is made of digits only, the number
    1..5 of the rating word that [s] is, whatever its case, and NaN
    otherwise.  The cells "3", "Three", "three" and "Zero" give 3, 3, 3 and
    NaN. *)
Theorem C5_clean_rating (x : cell) :
  let s := strip (py_str x) in
  (isnull x = true → clean_rating x = Some NaN)
  ∧ (isnull x = false → match_digits s = true →
     clean_rating x = Some (Fin (inject_Z (Z.of_N (digits_value s)))))
  ∧ (isnull x = false → ∀ w n, (w, n) ∈ rating_words → lower s = w →
     clean_rating x = Some (Fin (inject_Z n)) ∧ (1 <= n <= 5)%Z)
  ∧ (isnull x = false → match_digits s = false →
     (∀ w n, (w, n) ∈ rating_words → lower s ≠ w) →
     clean_rating x = Some NaN)
  ∧ clean_rating (CStr "3") = Some (Fin 3)
  ∧ clean_rating (CStr "Three") = Some (Fin 3)
  ∧ clean_rating (CStr "three") = Some (Fin 3)
  ∧ clean_rating (CStr "Zero") = Some NaN.
Proof.
  cbv zeta. unfold clean_rating.
  split; [by intros ->|].
  split; [intros -> Hd; rewrite Hd; by apply py_float_digits|].
  split.
  { intros -> w n Hw Hs.
    rewrite (rating_word_not_digits _ w n Hw Hs), Hs.
    pose proof (proj2 (word_to_num_spec w n) Hw) as ->. split; [done|].
    unfold rating_words in Hw. rewrite !elem_of_cons, elem_of_nil in Hw.
    destruct Hw as [Hw|[Hw|[Hw|[Hw|[Hw|[]]]]]]; inversion Hw; lia. }
  split.
  { intros -> Hd Hw. rewrite Hd.
    destruct (word_to_num (lower (strip (py_str x)))) as [n|] eqn:Hn; [|done].
    apply word_to_num_spec in Hn. by destruct (Hw _ _ Hn). }
  repeat split; reflexivity.
Qed.

(** ** Substring search *)

Lemma startswith_spec p s : startswith p s = true ↔ ∃ b, s = p +:+ b.
Proof.
  revert s. induction p as [|a p IH]; intros s.
  - simpl. split; [intros _; by exists s | done].
  - destruct s as [|c s]; simpl.
    + split; [done | intros [b Hb]; discriminate Hb].
    + rewrite andb_true_iff, bool_decide_eq_true, IH. split.
      * intros [-> [b ->]]. by exists b.
      * intros [b Hb]. rewrite append_cons in Hb. injection Hb as -> ->. eauto.
Qed.

Lemma contains_unfold p s :
  contains p s
  = startswith p s
    || match s with EmptyString => false | String _ s' => contains p s' end.
Proof. by destruct s. Qed.

Lemma contains_spec p s : contains p s = true ↔ ∃ a b, s = a +:+ p +:+ b.
Proof.
  split.
  - induction s as [|c s IH]; rewrite contains_unfold, orb_true_iff.
    + intros [H|H]; [|done]. apply startswith_spec in H as [b ->]. by exists "", b.
    + intros [H|H].
      * apply startswith_spec in H as [b ->]. by exists "", b.
      * destruct (IH H) as (a & b & ->). by exists (String c a), b.
  - intros (a & b & ->). induction a as [|c a IH].
    + rewrite contains_unfold, orb_true_iff. left. apply startswith_spec. by exists b.
    + rewrite append_cons, contains_unfold, orb_true_iff. by right.
Qed.

(** ** [calculate_kpis] *)



Lemma has_str_text s : forallb is_text s = true → has_str s = true.
Proof. destruct s as [|c s]; [done|]. by destruct c. Qed.

(** On a frame without text among its prices and ratings and with texts
    only as availabilities no accessor raises, and [calculate_kpis] is the
    computation on the numbers. *)
Lemma calculate_kpis_ready df :
  kpi_ready df →
  calculate_kpis df
  = (let total_books := length (rows df) in
     let in_stock :=
       if has_column df "Availability"
       then length (List.filter (str_contains_nocase "In stock")
                      (column df "Availability"))
       else 0 in
     availability_rate ←
       (if 0 <? total_books
        then r ← py_truediv in_stock total_books; Some (fscale r 100)
        else Some (Fin 0));
     Some (mkKPIs
             (if has_column df "Price"
              then series_mean (column df "Price") else NaN)
             (if has_column df "Rating"
              then series_mean (column df "Rating") else NaN)
             total_books in_stock
             (if has_column df "Price"
              then series_min (column df "Price") else NaN)
             (if has_column df "Price"
              then series_max (column df "Price") else NaN)
             availability_rate)).
Proof.
  intros (HP & HR & HA). unfold calculate_kpis, mean, count_contains.
  rewrite HP, HR, (has_str_text _ HA).
  by destruct (has_column df "Price"), (has_column df "Rating"),
       (has_column df "Availability").
Qed.


(** ** The filter *)

Lemma isin_floats_fin values r :
  isin_floats values (CFlt (Fin r)) = true
  ↔ ∃ x, Fin x ∈ values ∧ (x == r)%Q.
Proof.
  simpl. rewrite existsb_exists. split.
  - intros (y & Hy & Hs). destruct y as [x| |]; simpl in Hs; try done.
    exists x. split; [by apply list_elem_of_In|].
    symmetry. by apply Qeq_bool_iff.
  - intros (x & Hx & Hr). exists (Fin x). split; [by apply list_elem_of_In|].
    simpl. apply Qeq_bool_iff. by symmetry.
Qed.

Lemma selected_canonical cols sel row p r a lo hi :
  get cols "Price" row = CFlt (Fin p) →
  get cols "Rating" row = CFlt (Fin r) →
  get cols "Availability" row = CStr a →
  price_range sel = (Fin lo, Fin hi) →
  selected cols sel row = true
  ↔ (∃ x, Fin x ∈ selected_ratings sel ∧ (x == r)%Q)
    ∧ (lo <= p)%Q ∧ (p <= hi)%Q ∧ a ∈ selected_availability sel.
Proof.
  intros HP HR HA Hrange. unfold selected. rewrite HP, HR, HA, Hrange.
  rewrite !andb_true_iff, isin_floats_fin. simpl.
  rewrite !Qle_bool_iff, bool_decide_eq_true. tauto.
Qed.

(** Claim C8.  The filter keeps the header and keeps, in their order,
    exactly the rows that pass the mask; on a row with a finite price, a
    finite rating and a text availability the mask is the conjunction
    "rating among the selected ratings, lower bound <= price <= upper bound,
    availability among the selected ones".  On the two-row scenario only the
    first row is left, and its KPIs are 10, 3, 1, 1 and 100. *)
Theorem C8_filter (df : DataFrame) (sel : selection) :
  columns (filter_df df sel) = columns df
  ∧ rows (filter_df df sel) = List.filter (selected (columns df) sel) (rows df)
  ∧ (∀ row, row ∈ rows (filter_df df sel)
            ↔ row ∈ rows df ∧ selected (columns df) sel row = true)
  ∧ (∀ row p r a lo hi,
       get (columns df) "Price" row = CFlt (Fin p) →
       get (columns df) "Rating" row = CFlt (Fin r) →
       get (columns df) "Availability" row = CStr a →
       price_range sel = (Fin lo, Fin hi) →
       selected (columns df) sel row = true
       ↔ (∃ x, Fin x ∈ selected_ratings sel ∧ (x == r)%Q)
         ∧ (lo <= p)%Q ∧ (p <= hi)%Q ∧ a ∈ selected_availability sel)
  ∧ rows (filter_df scenario_frame scenario_selection)
    = [[CStr "first"; CFlt (Fin 10); CFlt (Fin 3); CStr "In stock"]]
  ∧ calculate_kpis (filter_df scenario_frame scenario_selection)
    = Some (mkKPIs (Fin 10) (Fin 3) 1 1 (Fin 10) (Fin 10) (Fin 100)).
Proof.
  split; [done|]. split; [done|]. split.
  { intros row. simpl. rewrite !list_elem_of_In. apply filter_In. }
  split; [intros; by apply selected_canonical|].
  split; vm_compute; reflexivity.
Qed.

(** ** The column mapping *)

Lemma in_values_spec v (m : gmap string string) :
  in_values v m = true ↔ ∃ k, m !! k = Some v.
Proof.
  unfold in_values. rewrite bool_decide_eq_true, list_elem_of_fmap. split.
  - intros ([k v'] & -> & H). exists k. by apply elem_of_map_to_list.
  - intros [k H]. exists (k, v). split; [done|]. by apply elem_of_map_to_list.
Qed.

Lemma in_values_false v (m : gmap string string) :
  in_values v m = false ↔ ∀ k, m !! k ≠ Some v.
Proof.
  rewrite <- not_true_iff_false, in_values_spec. split.
  - intros H k Hk. apply H. by exists k.
  - intros H [k Hk]. by apply (H k).
Qed.

Lemma resolve_column_first_free m col :
  resolve_column m col
  = match first_free m col with
    | Some field => <[col := field]> m
    | None => m
    end.
Proof.
  unfold resolve_column, first_free, keywords, has_keyword. cbn [List.find fst snd existsb].
  rewrite !orb_false_r.
  destruct (contains "title" (lower col) && negb (in_values "Title" m)); [done|].
  destruct (contains "price" (lower col) && negb (in_values "Price" m)); [done|].
  destruct (contains "rating" (lower col) && negb (in_values "Rating" m)); [done|].
  by destruct ((contains "availability" (lower col) || contains "avail" (lower col))
               && negb (in_values "Availability" m)).
Qed.

Lemma first_free_some m col field :
  first_free m col = Some field →
  field ∈ required_cols ∧ in_values field m = false
  ∧ ∃ kws, (field, kws) ∈ keywords ∧ has_keyword col (field, kws) = true.
Proof.
  unfold first_free. destruct (List.find _ keywords) as [[f kws]|] eqn:Hfind; [|done].
  intros [= <-]. apply find_some in Hfind as [Hin Hcond].
  apply andb_true_iff in Hcond as [Hkw Hfree]. apply negb_true_iff in Hfree.
  simpl in Hfree. split; [|split; [done|]].
  - unfold keywords in Hin. simpl in Hin. unfold required_cols.
    rewrite !elem_of_cons.
    destruct Hin as [H|[H|[H|[H|[]]]]]; inversion H; tauto.
  - exists kws. split; [by apply list_elem_of_In | done].
Qed.

Lemma first_free_none m col field kws :
  first_free m col = None →
  (field, kws) ∈ keywords → has_keyword col (field, kws) = true →
  in_values field m = true.
Proof.
  unfold first_free. destruct (List.find _ keywords) eqn:Hfind; [done|]. intros _ Hin Hkw.
  pose proof (find_none _ _ Hfind (field, kws) (proj1 (list_elem_of_In _ _) Hin)) as H.
  simpl in H. rewrite Hkw in H. simpl in H. by apply negb_false_iff in H.
Qed.

Lemma resolve_column_other m col k :
  k ≠ col → resolve_column m col !! k = m !! k.
Proof.
  intros Hne. rewrite resolve_column_first_free.
  destruct (first_free m col); [|done]. by apply lookup_insert_ne.
Qed.

Lemma foldl_resolve_other cols m k :
  k ∉ cols → foldl resolve_column m cols !! k = m !! k.
Proof.
  revert m. induction cols as [|c cols IH]; intros m Hk; [done|].
  apply not_elem_of_cons in Hk as [Hne Hk]. simpl.
  rewrite (IH _ Hk). by apply resolve_column_other.
Qed.

(** Only columns of the header are keys of the mapping. *)
Lemma resolve_columns_key cols k v : resolve_columns cols !! k = Some v → k ∈ cols.
Proof.
  intros H. destruct (decide (k ∈ cols)) as [|Hk]; [done|].
  unfold resolve_columns in H. rewrite (foldl_resolve_other _ _ _ Hk) in H.
  by rewrite lookup_empty in H.
Qed.

Lemma resolve_column_one_source m col :
  one_source m → one_source (resolve_column m col).
Proof.
  intros Hm. rewrite resolve_column_first_free.
  destruct (first_free m col) as [f|] eqn:Hf; [|done].
  apply first_free_some in Hf as (_ & Hfree & _).
  rewrite in_values_false in Hfree.
  intros k1 k2 v. rewrite !lookup_insert.
  repeat case_decide; subst; try done.
  - intros [= <-] Hk2. by destruct (Hfree k2).
  - intros Hk1 [= <-]. by destruct (Hfree k1).
  - apply Hm.
Qed.

Lemma foldl_resolve_one_source cols m :
  one_source m → one_source (foldl resolve_column m cols).
Proof.
  revert m. induction cols as [|c cols IH]; intros m Hm; [done|].
  simpl. apply IH, resolve_column_one_source, Hm.
Qed.

Lemma resolve_columns_one_source cols : one_source (resolve_columns cols).
Proof.
  apply foldl_resolve_one_source. intros k1 k2 v H. by rewrite lookup_empty in H.
Qed.

Lemma resolve_columns_snoc pre c :
  resolve_columns (pre ++ [c]) = resolve_column (resolve_columns pre) c.
Proof. unfold resolve_columns. by rewrite foldl_app. Qed.

Lemma resolve_columns_first_wins pre c suf :
  c ∉ suf →
  resolve_columns (pre ++ c :: suf) !! c = resolve_columns (pre ++ [c]) !! c.
Proof.
  intros Hc. unfold resolve_columns.
  rewrite (foldl_app _ pre (c :: suf)), (foldl_app _ pre [c]). simpl.
  by apply foldl_resolve_other.
Qed.

(** Claim C4, as stated, fails.  With the header [Title, Title Price]
    the second column contains the keyword of Title, which already has its
    source: by the claim it is ignored.  [load_data] goes on to the next
    test of the chain and makes it the source of Price. *)
Lemma C4_counterexample :
  first_match "Title Price" = Some "Title"
  ∧ in_values "Title" (resolve_columns ["Title"]) = true
  ∧ resolve_column_claimed (resolve_columns ["Title"]) "Title Price" !! "Title Price"
    = None
  ∧ resolve_column (resolve_columns ["Title"]) "Title Price" !! "Title Price"
    = Some "Price"
  ∧ ¬ (∀ m col, resolve_column m col = resolve_column_claimed m col).
Proof.
  split; [reflexivity|]. split; [reflexivity|].
  split; [reflexivity|]. split; [reflexivity|].
  intros H.
  pose proof (f_equal (λ m : gmap string string, m !! "Title Price")
                (H (resolve_columns ["Title"]) "Title Price")) as Heq.
  vm_compute in Heq. discriminate Heq.
Qed.

(** Claim C4, amended.  Each header, lower-cased, goes to the first
    field, in the order Title, Price, Rating, Availability, whose keyword it
    contains and that has no source column yet; when every field whose
    keyword it contains already has one, the mapping is left as it is.  No
    field gets two source columns, and a column whose name does not come
    again keeps the field it was given. *)
Theorem C4_first_free_field :
  (∀ m col,
     resolve_column m col
     = match first_free m col with
       | Some field => <[col := field]> m
       | None => m
       end)
  ∧ (∀ m col,
       (∀ field kws, (field, kws) ∈ keywords →
          has_keyword col (field, kws) = true → in_values field m = true) →
       resolve_column m col = m)
  ∧ (∀ cols c1 c2 field,
       resolve_columns cols !! c1 = Some field →
       resolve_columns cols !! c2 = Some field → c1 = c2)
  ∧ (∀ pre c suf,
       c ∉ suf →
       resolve_columns (pre ++ c :: suf) !! c
       = resolve_column (resolve_columns pre) c !! c).
Proof.
  split; [apply resolve_column_first_free|]. split.
  { intros m col Hall. rewrite resolve_column_first_free.
    destruct (first_free m col) as [f|] eqn:Hf; [|done].
    apply first_free_some in Hf as (_ & Hfree & kws & Hin & Hkw).
    rewrite (Hall f kws Hin Hkw) in Hfree. discriminate Hfree. }
  split.
  { intros cols. apply resolve_columns_one_source. }
  intros pre c suf Hc. rewrite <- resolve_columns_snoc.
  by apply resolve_columns_first_wins.
Qed.

(** ** Renaming, duplicated names and missing columns *)

Lemma dedupe_from_elem seen cols x :
  x ∈ select_mask (negb <$> duplicated_from seen cols) cols
  ↔ x ∈ cols ∧ x ∉ seen.
Proof.
  revert seen. induction cols as [|c cols IH]; intros seen; simpl.
  - rewrite elem_of_nil. tauto.
  - case_bool_decide as Hc; simpl.
    + rewrite IH, (elem_of_cons cols), (not_elem_of_cons seen). split.
      * intros (Hx & Hne & Hs). tauto.
      * intros [[->|Hx] Hs]; [done|]. repeat split; [done| |done]. by intros ->.
    + rewrite (elem_of_cons (select_mask _ _)), IH, (elem_of_cons cols),
        (not_elem_of_cons seen).
      split.
      * intros [->|(Hx & Hne & Hs)]; tauto.
      * intros [[->|Hx] Hs]; [by left|].
        destruct (decide (x = c)) as [->|Hne]; [by left | by right].
Qed.

(** Dropping the duplicated names removes no name from the header. *)
Lemma resolved_columns_elem df x : x ∈ columns (resolved df) ↔ x ∈ renamed df.
Proof.
  unfold resolved, kept, duplicated. simpl.
  rewrite dedupe_from_elem, elem_of_nil. tauto.
Qed.

Lemma missing_of_spec cols f :
  f ∈ missing_of cols ↔ f ∈ required_cols ∧ f ∉ cols.
Proof.
  unfold missing_of. rewrite !list_elem_of_In, filter_In, negb_true_iff.
  by rewrite bool_decide_eq_false, !list_elem_of_In.
Qed.

Lemma load_data_missing df :
  missing_of (columns (resolved df)) ≠ [] →
  load_data df = MissingColumns (missing_of (columns (resolved df))).
Proof. unfold load_data. by destruct (missing_of (columns (resolved df))). Qed.

(** A header that is the very name of a field contains the keyword of that
    field and of no other. *)
Lemma required_keyword f :
  f ∈ required_cols →
  ∃ kws, (f, kws) ∈ keywords ∧ has_keyword f (f, kws) = true.
Proof.
  unfold required_cols, keywords. rewrite !elem_of_cons, elem_of_nil.
  intros [->|[->|[->|[->|[]]]]];
    [exists ["title"] | exists ["price"] | exists ["rating"]
    | exists ["availability"; "avail"]];
    (split; [rewrite !elem_of_cons; tauto | reflexivity]).
Qed.

(** With headers that differ after trimming, a field is the name of a
    column of the renamed frame exactly when the mapping gave it a source. *)
Lemma renamed_elem_in_values df f :
  NoDup (stripped df) → f ∈ required_cols →
  f ∈ renamed df ↔ in_values f (resolve_columns (stripped df)) = true.
Proof.
  intros Hnd Hf. unfold renamed. rewrite list_elem_of_fmap, in_values_spec.
  set (m := resolve_columns (stripped df)). split.
  - intros (c & Hren & Hc). unfold rename in Hren.
    destruct (m !! c) as [v|] eqn:Hmc; simpl in Hren; [subst v; by exists c|].
    subst c. apply list_elem_of_split in Hc as (pre & suf & Hsplit).
    rewrite Hsplit in Hnd. apply NoDup_app in Hnd as (_ & Hpre & Hsuf).
    apply NoDup_cons in Hsuf as [Hfsuf _].
    assert (m !! f = resolve_column (resolve_columns pre) f !! f) as Hlast.
    { unfold m. rewrite Hsplit, <- resolve_columns_snoc.
      by apply resolve_columns_first_wins. }
    rewrite Hmc, resolve_column_first_free in Hlast.
    destruct (first_free (resolve_columns pre) f) as [g|] eqn:Hg.
    { by rewrite lookup_insert_eq in Hlast. }
    destruct (required_keyword f Hf) as (kws & Hin & Hkw).
    pose proof (first_free_none _ _ _ _ Hg Hin Hkw) as Hv.
    apply in_values_spec in Hv as [k Hk]. exists k.
    pose proof (resolve_columns_key _ _ _ Hk) as Hkpre.
    unfold m, resolve_columns. rewrite Hsplit, foldl_app.
    rewrite foldl_resolve_other; [exact Hk|].
    exact (Hpre k Hkpre).
  - intros [k Hk]. exists k. split.
    + unfold rename. by rewrite Hk.
    + by apply resolve_columns_key in Hk.
Qed.

(** Claim C6.  The columns reported missing are exactly the canonical
    fields that name no column of the renamed frame, all of them and in the
    order Title, Price, Rating, Availability; as soon as there is one,
    [load_data] stops with that report and returns no frame.  With headers
    that differ after trimming, naming no column is the same as having been
    given no source column by the mapping. *)
Theorem C6_missing_columns (df : DataFrame) :
  let cols := columns (resolved df) in
  (∀ f, f ∈ missing_of cols ↔ f ∈ required_cols ∧ f ∉ cols)
  ∧ missing_of cols
    = List.filter (λ f, negb (bool_decide (f ∈ cols)))
        ["Title"; "Price"; "Rating"; "Availability"]
  ∧ (∀ f, f ∈ required_cols → f ∉ cols →
       load_data df = MissingColumns (missing_of cols)
       ∧ ∀ out, load_data df ≠ Loaded out)
  ∧ (NoDup (stripped df) →
     ∀ f, f ∈ required_cols →
       f ∉ cols ↔ in_values f (resolve_columns (stripped df)) = false).
Proof.
  cbv zeta. split; [apply missing_of_spec|]. split; [reflexivity|]. split.
  - intros f Hf Hcols.
    assert (missing_of (columns (resolved df)) ≠ []) as Hne.
    { intros Hnil. pose proof (proj2 (missing_of_spec _ f) (conj Hf Hcols)) as Hin.
      rewrite Hnil in Hin. by apply elem_of_nil in Hin. }
    rewrite (load_data_missing df Hne). split; [done|]. by intros out.
  - intros Hnd f Hf.
    rewrite resolved_columns_elem, (renamed_elem_in_values df f Hnd Hf).
    by rewrite not_true_iff_false.
Qed.

(** ** Columns and rows *)

Lemma index_of_lookup name cols i :
  index_of name cols = Some i → cols !! i = Some name.
Proof.
  revert i. induction cols as [|c cols IH]; intros i; simpl; [done|].
  case_bool_decide as Hc.
  - intros [= <-]. by subst c.
  - destruct (index_of name cols) as [j|]; simpl; [|done].
    intros [= <-]. by apply IH.
Qed.

Lemma index_of_elem name cols :
  name ∈ cols → ∃ i, index_of name cols = Some i.
Proof.
  induction cols as [|c cols IH]; [by rewrite elem_of_nil|].
  rewrite elem_of_cons. intros Hin. simpl. case_bool_decide as Hc; [by eexists|].
  destruct Hin as [->|Hin]; [done|]. destruct (IH Hin) as [i ->]. by eexists.
Qed.

Lemma index_of_inj a b cols i :
  index_of a cols = Some i → index_of b cols = Some i → a = b.
Proof.
  intros Ha Hb. apply index_of_lookup in Ha, Hb. congruence.
Qed.

Lemma mapM_total {A B : Type} (f : A → option B) (g : A → B) (l : list A) :
  (∀ x, f x = Some (g x)) → mapM f l = Some (g <$> l).
Proof.
  intros Hf. induction l as [|x l IH]; [done|].
  simpl. rewrite Hf. simpl. rewrite IH. reflexivity.
Qed.

Lemma insert_as_alter (g : cell → cell) i (row : list cell) c :
  row !! i = Some c → <[i := g c]> row = alter g i row.
Proof.
  revert i. induction row as [|x row IH]; intros [|i] H; simplify_eq/=; try done.
  f_equal. by apply IH.
Qed.

Lemma alter_out_of_range (g : cell → cell) i (row : list cell) :
  row !! i = None → alter g i row = row.
Proof.
  revert i. induction row as [|x row IH]; intros [|i] H; simplify_eq/=; try done.
  f_equal. by apply IH.
Qed.

Lemma apply_in_row_total f g i row :
  (∀ c, f c = Some (g c)) → apply_in_row f i row = Some (alter g i row).
Proof.
  intros Hf. unfold apply_in_row. destruct (row !! i) as [c|] eqn:Hc.
  - rewrite Hf. simpl. by rewrite (insert_as_alter g i row c Hc).
  - by rewrite (alter_out_of_range g i row Hc).
Qed.

Lemma apply_column_total name f g df i :
  index_of name (columns df) = Some i → (∀ c, f c = Some (g c)) →
  apply_column name f df
  = Some (mkDataFrame (columns df) (alter g i <$> rows df)).
Proof.
  intros Hi Hf. unfold apply_column. rewrite Hi.
  rewrite (mapM_total _ (alter g i)); [done|].
  intros row. by apply apply_in_row_total.
Qed.

Lemma get_alter_same cols name i g row :
  index_of name cols = Some i →
  get cols name (alter g i row) = default missing (g <$> row !! i).
Proof. intros Hi. unfold get. by rewrite Hi, list_lookup_alter_eq. Qed.

Lemma get_alter_other cols name i j g row :
  index_of name cols = Some j → i ≠ j →
  get cols name (alter g i row) = get cols name row.
Proof. intros Hj Hne. unfold get. by rewrite Hj, list_lookup_alter_ne. Qed.

(** ** [load_data] in one piece *)

Lemma clean_rating_cell c : CFlt <$> clean_rating c = Some (rating_cell c).
Proof.
  unfold rating_cell. by destruct (clean_rating_defined c) as [r ->].
Qed.

Lemma missing_of_nil cols f :
  missing_of cols = [] → f ∈ required_cols → f ∈ cols.
Proof.
  intros Hnil Hf. destruct (decide (f ∈ cols)) as [|Hn]; [done|].
  pose proof (proj2 (missing_of_spec cols f) (conj Hf Hn)) as Hin.
  rewrite Hnil in Hin. by apply elem_of_nil in Hin.
Qed.

Lemma required_cols_elem :
  "Title" ∈ required_cols ∧ "Price" ∈ required_cols
  ∧ "Rating" ∈ required_cols ∧ "Availability" ∈ required_cols.
Proof. unfold required_cols. rewrite !elem_of_cons. tauto. Qed.

(** When no column is missing [load_data] never raises: it returns the rows
    of the renamed frame, each with its Price, Rating and Availability cells
    rewritten, that [dropna] lets through. *)
Lemma load_data_loaded df :
  missing_of (columns (resolved df)) = [] →
  load_data df
  = Loaded (dropna required_cols
              (mkDataFrame (columns (resolved df))
                 (normalize_row (columns (resolved df)) <$> rows (resolved df)))).
Proof.
  intros Hnil. unfold load_data. rewrite Hnil.
  destruct required_cols_elem as (_ & HP & HR & HA).
  destruct (index_of_elem _ _ (missing_of_nil _ _ Hnil HP)) as [iP HiP].
  destruct (index_of_elem _ _ (missing_of_nil _ _ Hnil HR)) as [iR HiR].
  destruct (index_of_elem _ _ (missing_of_nil _ _ Hnil HA)) as [iA HiA].
  set (df1 := resolved df) in *.
  rewrite (apply_column_total "Price" _ clean_price_cell df1 iP HiP); [|done].
  cbn [mbind option_bind].
  set (df2 := mkDataFrame (columns df1) (alter clean_price_cell iP <$> rows df1)).
  rewrite (apply_column_total "Rating" _ rating_cell df2 iR HiR);
    [|apply clean_rating_cell].
  cbn [mbind option_bind].
  set (df3 := mkDataFrame (columns df2) (alter rating_cell iR <$> rows df2)).
  rewrite (apply_column_total "Availability" _ clean_availability df3 iA HiA);
    [|done].
  subst df3 df2.
  cbn [columns rows]. do 3 f_equal.
  rewrite <- !list_fmap_compose. apply list_fmap_ext. intros _ row _.
  unfold normalize_row. by rewrite HiP, HiR, HiA.
Qed.

Lemma load_data_cases df :
  (missing_of (columns (resolved df)) ≠ []
   ∧ load_data df = MissingColumns (missing_of (columns (resolved df))))
  ∨ (missing_of (columns (resolved df)) = []
     ∧ load_data df
       = Loaded (dropna required_cols
                   (mkDataFrame (columns (resolved df))
                      (normalize_row (columns (resolved df))
                       <$> rows (resolved df))))).
Proof.
  destruct (missing_of (columns (resolved df))) as [|f l] eqn:Hm.
  - right. split; [done|]. by apply load_data_loaded.
  - left. split; [done|]. rewrite <- Hm. apply load_data_missing. by rewrite Hm.
Qed.

(** ** The rows that [load_data] keeps *)

Lemma dropna_elem subset df row :
  row ∈ rows (dropna subset df)
  ↔ row ∈ rows df
    ∧ ∀ name, name ∈ subset → isnull (get (columns df) name row) = false.
Proof.
  unfold dropna. cbn [rows]. rewrite !list_elem_of_In, filter_In, forallb_forall.
  split; intros [Hrow Hall]; (split; [exact Hrow|]); intros name Hname.
  - apply negb_true_iff, Hall. by apply list_elem_of_In.
  - apply negb_true_iff, Hall. by apply list_elem_of_In.
Qed.

Lemma get_lookup cols name i row c :
  index_of name cols = Some i → row !! i = Some c → get cols name row = c.
Proof. intros Hi Hc. unfold get. by rewrite Hi, Hc. Qed.

Lemma get_short cols name i row :
  index_of name cols = Some i → row !! i = None → get cols name row = missing.
Proof. intros Hi Hc. unfold get. by rewrite Hi, Hc. Qed.

Section normalized_row.
Variable cols : list string.
Variables iT iP iR iA : nat.
Hypothesis HiT : index_of "Title" cols = Some iT.
Hypothesis HiP : index_of "Price" cols = Some iP.
Hypothesis HiR : index_of "Rating" cols = Some iR.
Hypothesis HiA : index_of "Availability" cols = Some iA.

Local Ltac distinct H1 H2 :=
  let E := fresh in
  intros E; subst; pose proof (index_of_inj _ _ _ _ H1 H2); discriminate.

Lemma normalize_row_unfold row :
  normalize_row cols row
  = alter clean_availability iA
      (alter rating_cell iR (alter clean_price_cell iP row)).
Proof. unfold normalize_row. by rewrite HiP, HiR, HiA. Qed.

Lemma get_normalized_title row :
  get cols "Title" (normalize_row cols row) = get cols "Title" row.
Proof.
  rewrite normalize_row_unfold.
  rewrite (get_alter_other cols "Title" iA iT); [|done|distinct HiA HiT].
  rewrite (get_alter_other cols "Title" iR iT); [|done|distinct HiR HiT].
  rewrite (get_alter_other cols "Title" iP iT); [|done|distinct HiP HiT].
  reflexivity.
Qed.

Lemma get_normalized_price row :
  get cols "Price" (normalize_row cols row)
  = clean_price_cell (get cols "Price" row).
Proof.
  rewrite normalize_row_unfold.
  rewrite (get_alter_other cols "Price" iA iP); [|done|distinct HiA HiP].
  rewrite (get_alter_other cols "Price" iR iP); [|done|distinct HiR HiP].
  rewrite (get_alter_same cols "Price" iP); [|done].
  destruct (row !! iP) as [c|] eqn:Hc.
  - by rewrite (get_lookup cols "Price" iP row c).
  - by rewrite (get_short cols "Price" iP row).
Qed.

Lemma get_normalized_rating row :
  get cols "Rating" (normalize_row cols row)
  = rating_cell (get cols "Rating" row).
Proof.
  rewrite normalize_row_unfold.
  rewrite (get_alter_other cols "Rating" iA iR); [|done|distinct HiA HiR].
  rewrite (get_alter_same cols "Rating" iR); [|done].
  rewrite list_lookup_alter_ne; [|distinct HiP HiR].
  destruct (row !! iR) as [c|] eqn:Hc.
  - by rewrite (get_lookup cols "Rating" iR row c).
  - by rewrite (get_short cols "Rating" iR row).
Qed.

(** The Availability cell is rewritten wherever the row has one; a row
    too short to have one keeps a missing cell there. *)
Lemma get_normalized_availability row :
  get cols "Availability" (normalize_row cols row)
  = match row !! iA with
    | Some c => clean_availability c
    | None => missing
    end.
Proof.
  rewrite normalize_row_unfold.
  rewrite (get_alter_same cols "Availability" iA); [|done].
  rewrite list_lookup_alter_ne; [|distinct HiR HiA].
  rewrite list_lookup_alter_ne; [|distinct HiP HiA].
  by destruct (row !! iA).
Qed.
End normalized_row.

Lemma clean_rating_shape c r :
  clean_rating c = Some r →
  r = NaN ∨ ∃ n : N, r = Fin (inject_Z (Z.of_N n)).
Proof.
  unfold clean_rating. destruct (isnull c); [intros [= <-]; by left|].
  destruct (match_digits (strip (py_str c))) eqn:Hd.
  - rewrite (py_float_digits _ Hd). intros [= <-]. right. by eexists.
  - destruct (word_to_num (lower (strip (py_str c)))) as [n|] eqn:Hn;
      [|intros [= <-]; by left].
    intros [= <-]. right. exists (Z.to_N n). rewrite Z2N.id; [done|].
    apply word_to_num_spec in Hn.
    unfold rating_words in Hn. rewrite !elem_of_cons, elem_of_nil in Hn.
    destruct Hn as [H|[H|[H|[H|[H|[]]]]]]; inversion H; lia.
Qed.

(** Claim C1, amended.  Every row of the frame that [load_data] returns
    comes from a row of the table and carries: the Title cell of that row,
    which is not missing; as Price the number read from the Price cell,
    which is not NaN; as Rating the number read from the Rating cell, which
    is a whole number not below zero; as Availability the trimmed text of
    the Availability cell. *)
Theorem C1_retained_rows (df out : DataFrame) :
  load_data df = Loaded out →
  ∀ row', row' ∈ rows out →
    ∃ row, row ∈ rows (resolved df)
      ∧ get (columns out) "Title" row' = get (columns (resolved df)) "Title" row
      ∧ isnull (get (columns out) "Title" row') = false
      ∧ (∃ p, get (columns out) "Price" row' = CFlt p ∧ p ≠ NaN
              ∧ p = to_numeric (price_text (get (columns (resolved df)) "Price" row)))
      ∧ (∃ n : N,
           get (columns out) "Rating" row' = CFlt (Fin (inject_Z (Z.of_N n)))
           ∧ clean_rating (get (columns (resolved df)) "Rating" row)
             = Some (Fin (inject_Z (Z.of_N n))))
      ∧ (∃ a, get (columns out) "Availability" row' = CStr a
              ∧ a = strip (py_str (get (columns (resolved df)) "Availability" row))).
Proof.
  intros Hload row' Hrow'.
  destruct (load_data_cases df) as [[_ Hm]|[Hnil Hl]]; [congruence|].
  remember (resolved df) as df1 eqn:Hdf1. clear Hdf1.
  set (cols := columns df1) in *.
  assert (out = dropna required_cols
                  (mkDataFrame cols (normalize_row cols <$> rows df1))) as ->
    by congruence.
  clear Hl Hload.
  apply dropna_elem in Hrow' as [Hin Hnn]. cbn [rows columns] in Hin, Hnn.
  apply list_elem_of_fmap in Hin as (row & -> & Hrow).
  destruct required_cols_elem as (HT & HP & HR & HA).
  destruct (index_of_elem _ _ (missing_of_nil _ _ Hnil HT)) as [iT HiT].
  destruct (index_of_elem _ _ (missing_of_nil _ _ Hnil HP)) as [iP HiP].
  destruct (index_of_elem _ _ (missing_of_nil _ _ Hnil HR)) as [iR HiR].
  destruct (index_of_elem _ _ (missing_of_nil _ _ Hnil HA)) as [iA HiA].
  pose proof (Hnn _ HT) as HnT. pose proof (Hnn _ HP) as HnP.
  pose proof (Hnn _ HR) as HnR. pose proof (Hnn _ HA) as HnA.
  exists row. split; [exact Hrow|]. cbn [columns].
  rewrite (get_normalized_title cols iT iP iR iA HiT HiP HiR HiA) in HnT |- *.
  rewrite (get_normalized_price cols iP iR iA HiP HiR HiA) in HnP |- *.
  rewrite (get_normalized_rating cols iP iR iA HiP HiR HiA) in HnR |- *.
  rewrite (get_normalized_availability cols iP iR iA HiP HiR HiA) in HnA |- *.
  split; [done|]. split; [done|]. split; [|split].
  - eexists. split; [reflexivity|]. split; [|done].
    unfold clean_price_cell in HnP. intros Hnan. by rewrite Hnan in HnP.
  - unfold rating_cell in HnR |- *.
    destruct (clean_rating_defined (get cols "Rating" row)) as [r Hr].
    rewrite Hr in HnR |- *. simpl in HnR |- *.
    destruct (clean_rating_shape _ _ Hr) as [->|[n ->]]; [done|]. by exists n.
  - destruct (row !! iA) as [c|] eqn:Hc; [|done].
    rewrite (get_lookup cols "Availability" iA row c HiA Hc). by eexists.
Qed.

(** ** Writing digits *)

Lemma digit_char_code d : (d < 10)%N → code (digit_char d) = (48 + d)%N.
Proof.
  intros Hd. unfold code, digit_char. apply N_ascii_embedding. lia.
Qed.

Lemma digit_char_is_digit d : (d < 10)%N → is_digit (digit_char d) = true.
Proof.
  intros Hd. unfold is_digit. rewrite (digit_char_code d Hd).
  apply andb_true_iff. split; apply N.leb_le; lia.
Qed.

Lemma digit_char_val d : (d < 10)%N → digit_val (digit_char d) = d.
Proof. intros Hd. unfold digit_val. rewrite (digit_char_code d Hd). lia. Qed.

Lemma mod_10_lt n : (n mod 10 < 10)%N.
Proof. apply N.mod_lt. lia. Qed.

Lemma length_fixed_digits k n : String.length (fixed_digits k n) = k.
Proof.
  revert n. induction k as [|k IH]; intros n; simpl; [done|].
  rewrite length_append, IH. simpl. lia.
Qed.

Lemma all_digits_app s t : all_digits (s +:+ t) = all_digits s && all_digits t.
Proof. rewrite !all_digits_forall. apply forall_chars_app. Qed.

Lemma all_digits_fixed_digits k n : all_digits (fixed_digits k n) = true.
Proof.
  revert n. induction k as [|k IH]; intros n; simpl; [done|].
  rewrite all_digits_app, IH. simpl.
  by rewrite (digit_char_is_digit _ (mod_10_lt n)).
Qed.

Lemma digits_value_fixed_digits k n :
  digits_value (fixed_digits k n) = (n mod 10 ^ N.of_nat k)%N.
Proof.
  revert n. induction k as [|k IH]; intros n.
  - simpl. by rewrite N.mod_1_r.
  - cbn [fixed_digits]. rewrite digits_value_app, IH.
    cbn [String.length]. unfold digits_value at 1. cbn [digits_value_from].
    rewrite (digit_char_val _ (mod_10_lt n)).
    change (N.of_nat 1) with 1%N.
    rewrite N.pow_1_r, Nat2N.inj_succ, N.pow_succ_r', N.Div0.mod_mul_r. lia.
Qed.

Lemma width_from_bound fuel w n :
  (n < 10 ^ N.of_nat (w + fuel))%N → (n < 10 ^ N.of_nat (width_from fuel w n))%N.
Proof.
  revert w. induction fuel as [|fuel IH]; intros w Hn; simpl.
  - by rewrite Nat.add_0_r in Hn.
  - destruct (N.ltb_spec n (10 ^ N.of_nat w)) as [Hlt|Hge]; [done|].
    apply IH. by rewrite Nat.add_succ_comm.
Qed.

Lemma width_from_pos fuel w n : 0 < w → 0 < width_from fuel w n.
Proof.
  revert w. induction fuel as [|fuel IH]; intros w Hw; simpl; [done|].
  destruct (n <? 10 ^ N.of_nat w)%N; [done|]. apply IH. lia.
Qed.

Lemma width_bound n : (n < 10 ^ N.of_nat (width n))%N.
Proof.
  unfold width. apply width_from_bound.
  eapply N.lt_le_trans; [apply N.size_gt|].
  rewrite Nat2N.inj_add, N2Nat.id.
  transitivity (10 ^ N.size n)%N.
  - apply N.pow_le_mono_l. lia.
  - apply N.pow_le_mono_r; lia.
Qed.

Lemma all_digits_nat_digits n : all_digits (nat_digits n) = true.
Proof. apply all_digits_fixed_digits. Qed.

Lemma digits_value_nat_digits n : digits_value (nat_digits n) = n.
Proof.
  unfold nat_digits. rewrite digits_value_fixed_digits.
  apply N.mod_small, width_bound.
Qed.

Lemma nat_digits_nonempty n : str_empty (nat_digits n) = false.
Proof.
  unfold nat_digits.
  pose proof (width_from_pos (N.to_nat (N.size n)) 1 n Nat.lt_0_1) as Hw.
  fold (width n) in Hw. pose proof (length_fixed_digits (width n) n) as Hl.
  destruct (fixed_digits (width n) n); [simpl in Hl; lia | done].
Qed.

Lemma match_digits_nat_digits n : match_digits (nat_digits n) = true.
Proof.
  unfold match_digits. by rewrite nat_digits_nonempty, all_digits_nat_digits.
Qed.

(** ** Floats in positional notation read back to themselves *)

Lemma scale_from_found fuel k0 d j :
  k0 ≤ j → j < k0 + fuel → ((10 ^ N.of_nat j) mod d = 0)%N →
  ∃ k, scale_from fuel k0 d = Some k ∧ ((10 ^ N.of_nat k) mod d = 0)%N.
Proof.
  revert k0. induction fuel as [|fuel IH]; intros k0 Hle Hlt Hj; [lia|].
  simpl. destruct (N.eqb_spec ((10 ^ N.of_nat k0) mod d) 0) as [Hk0|Hk0].
  - by exists k0.
  - apply IH; [|lia|done].
    destruct (decide (k0 = j)) as [->|]; [done | lia].
Qed.

Lemma short_decimal_scale q :
  short_decimal q →
  ∃ k, scale_from 18 0 (Npos (Qden (Qred q))) = Some k
       ∧ ((10 ^ N.of_nat k) mod Npos (Qden (Qred q)) = 0)%N.
Proof.
  intros [m Hm]. apply (scale_from_found 18 0 _ 17); [lia|lia|].
  pose proof (gcd_Qred q) as Hgcd.
  assert (Qred q == m # 100000000000000000)%Q as Hred
    by (by rewrite Qred_correct).
  destruct (Qred q) as [a b]. unfold Qeq in Hred. cbn [Qnum Qden] in Hred, Hgcd |- *.
  assert ((Z.pos b | 100000000000000000)%Z) as Hdiv.
  { apply (Z.gauss _ a); [|by rewrite Z.gcd_comm].
    exists m. lia. }
  destruct Hdiv as [c Hc].
  change (10 ^ N.of_nat 17)%N with 100000000000000000%N.
  apply N.Div0.mod_divides. exists (Z.to_N c).
  assert (0 <= c)%Z by nia. lia.
Qed.

Lemma Qpower_10_neg (K : nat) :
  (Qpower (10 # 1) (0 - Z.of_nat K) == 1 # Z.to_pos (10 ^ Z.of_nat K))%Q.
Proof.
  rewrite Z.sub_0_l, Qpower_opp.
  change (10 # 1) with (inject_Z 10).
  rewrite <- Zpower_Qpower by lia.
  assert (0 < 10 ^ Z.of_nat K)%Z as Hpos by (apply Z.pow_pos_nonneg; lia).
  destruct (10 ^ Z.of_nat K)%Z as [|p|p]; try lia. reflexivity.
Qed.

Lemma decimal_value_make neg M K :
  decimal_value neg M K 0
  = Qred ((if neg then - Z.of_N M else Z.of_N M)%Z # Z.to_pos (10 ^ Z.of_nat K)).
Proof.
  unfold decimal_value. apply Qred_complete. rewrite Qpower_10_neg.
  unfold Qeq, Qmult, inject_Z. simpl. lia.
Qed.

(** A sign, the digits of [ip], a point and a run of digits read as the
    number they spell. *)
Lemma parse_positional (neg : bool) ip frac :
  str_empty frac = false → all_digits frac = true →
  parse_decimal ((if neg then "-" else "") +:+ nat_digits ip +:+ "." +:+ frac)
  = Some (decimal_value neg
            (ip * 10 ^ N.of_nat (String.length frac) + digits_value frac)
            (String.length frac) 0).
Proof.
  intros Hne Hd. unfold parse_decimal.
  assert (read_sign ((if neg then "-" else "") +:+ nat_digits ip +:+ "." +:+ frac)
          = (neg, nat_digits ip +:+ "." +:+ frac)) as ->.
  { destruct neg; [reflexivity|].
    change ("" +:+ nat_digits ip +:+ "." +:+ frac)
      with (nat_digits ip +:+ "." +:+ frac).
    pose proof (nat_digits_nonempty ip) as Hn.
    pose proof (all_digits_nat_digits ip) as Ha.
    destruct (nat_digits ip) as [|c s]; [done|].
    simpl in Ha. apply andb_true_iff in Ha as [Hc _].
    destruct (price_ascii_not_sign c (digit_is_price_ascii c Hc)).
    rewrite append_cons. by apply read_sign_other. }
  rewrite (digits_prefix_app (nat_digits ip) ("." +:+ frac));
    [|apply all_digits_nat_digits|reflexivity].
  change ("." +:+ frac) with (String "." frac). cbv beta iota.
  rewrite (digits_prefix_all frac Hd), nat_digits_nonempty.
  cbn [andb parse_exponent]. f_equal. f_equal.
  by rewrite digits_value_app, digits_value_nat_digits.
Qed.

Lemma positional_roundtrip (a : Z) (b : positive) (k : nat) :
  ((10 ^ N.of_nat k) mod N.pos b = 0)%N →
  let m := (Z.abs_N a * 10 ^ N.of_nat k / N.pos b)%N in
  parse_decimal
    ((if (a <? 0)%Z then "-" else "")
     +:+ nat_digits (m / 10 ^ N.of_nat k)
     +:+ "."
     +:+ (if Nat.eqb k 0 then "0" else fixed_digits k (m mod 10 ^ N.of_nat k)))
  = Some (Qred (a # b)).
Proof.
  intros Hk m.
  assert (m * N.pos b = Z.abs_N a * 10 ^ N.of_nat k)%N as Hm.
  { unfold m. rewrite N.mul_comm. symmetry. apply N.Div0.div_exact.
    rewrite <- N.Div0.mul_mod_idemp_r, Hk, N.mul_0_r. by apply N.Div0.mod_0_l. }
  assert (10 ^ N.of_nat k ≠ 0)%N as Hpow by (apply N.pow_nonzero; lia).
  pose proof (N.div_mod m (10 ^ N.of_nat k) Hpow) as Hdm.
  clearbody m. destruct k as [|k].
  - cbn [Nat.eqb]. rewrite parse_positional; [|done|done].
    f_equal. rewrite decimal_value_make. apply Qred_complete.
    change (10 ^ N.of_nat 0)%N with 1%N in *. rewrite N.div_1_r.
    unfold Qeq. cbn [Qnum Qden String.length digits_value digits_value_from].
    change (10 ^ N.of_nat 1)%N with 10%N. change (digit_val "0") with 0%N.
    change (Z.to_pos (10 ^ Z.of_nat 1)) with 10%positive.
    destruct (Z.ltb_spec a 0); lia.
  - cbn [Nat.eqb]. rewrite parse_positional;
      [| |apply all_digits_fixed_digits].
    + rewrite length_fixed_digits, digits_value_fixed_digits, N.Div0.mod_mod.
      f_equal. rewrite decimal_value_make. apply Qred_complete.
      rewrite (N.mul_comm (m / _)), <- Hdm.
      unfold Qeq. cbn [Qnum Qden].
      assert (Z.pos (Z.to_pos (10 ^ Z.of_nat (S k))) = Z.of_N (10 ^ N.of_nat (S k)))
        as ->.
      { rewrite Z2Pos.id by (apply Z.pow_pos_nonneg; lia).
        rewrite N2Z.inj_pow. f_equal; lia. }
      destruct (Z.ltb_spec a 0); nia.
    + pose proof (length_fixed_digits (S k) (m mod 10 ^ N.of_nat (S k))) as Hl.
      by destruct (fixed_digits (S k) _).
Qed.

Lemma fin_repr_parse q : short_decimal q → parse_decimal (fin_repr q) = Some (Qred q).
Proof.
  intros Hq. unfold fin_repr.
  destruct (short_decimal_scale q Hq) as (k & -> & Hk).
  change (default 17 (Some k)) with k.
  pose proof (Qred_complete _ _ (Qred_correct q)) as Hinv.
  destruct (Qred q) as [a b]. cbn [Qnum Qden] in *.
  rewrite <- Hinv. by apply positional_roundtrip.
Qed.

Lemma overflows_Qred q : overflows (Qred q) = overflows q.
Proof.
  unfold overflows. apply eq_true_iff_eq. rewrite !Qle_bool_iff.
  by rewrite Qred_correct.
Qed.

Lemma to_numeric_fin_repr q :
  short_decimal q → overflows q = false → to_numeric (fin_repr q) = Fin (Qred q).
Proof.
  intros Hq Hr. unfold to_numeric.
  by rewrite (fin_repr_parse q Hq), overflows_Qred, Hr.
Qed.

(** ** Cells that are already clean *)

Lemma number_ascii_not_space c : is_number_ascii c = true → py_isspace c = false.
Proof. ascii_cases c; vm_compute; congruence. Qed.

Lemma number_ascii_not_currency c : is_number_ascii c = true → is_currency c = false.
Proof. ascii_cases c; vm_compute; congruence. Qed.

Lemma number_ascii_not_N c :
  is_number_ascii c = true → bool_decide ("N"%char = c) = false.
Proof. ascii_cases c; vm_compute; congruence. Qed.

Lemma digit_is_number_ascii c : is_digit c = true → is_number_ascii c = true.
Proof. unfold is_number_ascii, is_price_ascii. intros ->. reflexivity. Qed.

Lemma digits_number_text s :
  all_digits s = true → forall_chars is_number_ascii s = true.
Proof.
  rewrite all_digits_forall. apply forall_chars_impl, digit_is_number_ascii.
Qed.

Lemma replace_NA_none s :
  forall_chars (λ c, negb (bool_decide ("N"%char = c))) s = true →
  replace "N/A" "" s = s.
Proof.
  unfold replace. induction s as [|c s IH]; [done|].
  cbn [forall_chars replace_go startswith]. rewrite andb_true_iff, negb_true_iff.
  intros [-> Hs]. cbn [andb]. by rewrite (IH Hs).
Qed.

Lemma fin_repr_number_text q : forall_chars is_number_ascii (fin_repr q) = true.
Proof.
  unfold fin_repr. rewrite !forall_chars_app, !andb_true_iff.
  split; [by destruct (_ <? _)%Z|]. split; [apply digits_number_text, all_digits_nat_digits|].
  split; [reflexivity|].
  destruct (Nat.eqb _ 0); [reflexivity|].
  apply digits_number_text, all_digits_fixed_digits.
Qed.

(** On the text of a float no currency sign, no [N/A] and no blank is there
    to be removed. *)
Lemma price_text_number_text s :
  forall_chars is_number_ascii s = true →
  strip (replace "N/A" "" (remove_chars is_currency s)) = s.
Proof.
  intros Hs. rewrite remove_chars_none; cycle 1.
  { eapply forall_chars_impl; [|exact Hs].
    intros c Hc. by rewrite (number_ascii_not_currency c Hc). }
  rewrite replace_NA_none; cycle 1.
  { eapply forall_chars_impl; [|exact Hs].
    intros c Hc. by rewrite (number_ascii_not_N c Hc). }
  apply strip_no_space. eapply forall_chars_impl; [|exact Hs].
  intros c Hc. by rewrite (number_ascii_not_space c Hc).
Qed.

Lemma clean_price_cell_float p :
  short_decimal p → overflows p = false →
  clean_price_cell (CFlt (Fin p)) = CFlt (Fin (Qred p)).
Proof.
  intros Hp Hr. unfold clean_price_cell, price_text. cbn [py_str float_repr].
  rewrite Hr.
  rewrite (price_text_number_text _ (fin_repr_number_text p)).
  by rewrite (to_numeric_fin_repr p Hp Hr).
Qed.

Lemma rating_cell_int n :
  (0 <= n)%Z → rating_cell (CInt n) = CFlt (Fin (inject_Z n)).
Proof.
  intros Hn. unfold rating_cell, clean_rating. cbn [isnull py_str].
  assert (int_repr n = nat_digits (Z.abs_N n)) as ->.
  { unfold int_repr. destruct (Z.ltb_spec n 0); [exfalso; lia | done]. }
  rewrite strip_no_space; cycle 1.
  { pose proof (all_digits_nat_digits (Z.abs_N n)) as Hd.
    rewrite all_digits_forall in Hd. eapply forall_chars_impl; [|exact Hd].
    intros c Hc. by rewrite (digit_not_space c Hc). }
  rewrite match_digits_nat_digits, (py_float_digits _ (match_digits_nat_digits _)).
  rewrite digits_value_nat_digits, N2Z.inj_abs_N, Z.abs_eq by lia. reflexivity.
Qed.

Lemma resolved_canonical rows0 :
  resolved (mkDataFrame required_cols rows0)
  = mkDataFrame required_cols (select_mask [true; true; true; true] <$> rows0).
Proof. reflexivity. Qed.

Lemma normalized_integer_rated row :
  integer_rated_row row →
  normalize_row required_cols (select_mask [true; true; true; true] row)
  = as_float_ratings row
  ∧ forallb (λ name, negb (isnull (get required_cols name (as_float_ratings row))))
      required_cols = true
  ∧ same_values row (as_float_ratings row).
Proof.
  intros (t & p & n & a & -> & Ht & Hp & Hr & Hn & Ha).
  split; [|split].
  - change (normalize_row required_cols
              (select_mask [true; true; true; true]
                 [t; CFlt (Fin p); CInt n; CStr a]))
      with [t; clean_price_cell (CFlt (Fin p)); rating_cell (CInt n);
            clean_availability (CStr a)].
    rewrite (clean_price_cell_float p Hp Hr), (rating_cell_int n Hn).
    unfold clean_availability. cbn [py_str]. by rewrite Ha.
  - change (negb (isnull t) && (true && (true && (true && true))) = true).
    by rewrite Ht.
  - unfold same_values. cbn. repeat split.
    + apply Qeq_bool_iff, Qred_correct.
    + apply Qeq_bool_iff. reflexivity.
Qed.

Lemma integer_rated_rows_kept rows0 :
  Forall integer_rated_row rows0 →
  List.filter
    (λ row, forallb (λ name, negb (isnull (get required_cols name row)))
              required_cols)
    (normalize_row required_cols
     <$> (select_mask [true; true; true; true] <$> rows0))
  = as_float_ratings <$> rows0.
Proof.
  induction 1 as [|row rest Hrow _ IH]; [done|].
  destruct (normalized_integer_rated row Hrow) as (Hnorm & Hkeep & _).
  rewrite !fmap_cons. cbn [List.filter]. rewrite Hnorm, Hkeep. by rewrite IH.
Qed.

(** ** The claims about the rows of the canonical frame *)

(** Claim C1, as stated, fails.  The second line of the table comes
    through [load_data] with the price -5, the rating 7 and an empty
    availability. *)
Lemma C1_counterexample :
  ∃ out row,
    load_data odd_values_frame = Loaded out
    ∧ row ∈ rows out
    ∧ get (columns out) "Price" row = CFlt (Fin (-5))
    ∧ get (columns out) "Rating" row = CFlt (Fin 7)
    ∧ get (columns out) "Availability" row = CStr ""
    ∧ ¬ claimed_canonical_row (columns out) row.
Proof.
  exists (mkDataFrame ["Title"; "Price"; "Rating"; "Availability"]
            [ [CStr "A Light in the Attic"; CFlt (Fin (5177 # 100));
               CFlt (Fin 3); CStr "In stock"];
              [CStr "Soumission"; CFlt (Fin (-5)); CFlt (Fin 7); CStr ""] ]),
         [CStr "Soumission"; CFlt (Fin (-5)); CFlt (Fin 7); CStr ""].
  split; [vm_compute; reflexivity|].
  split; [cbn [rows]; rewrite !elem_of_cons; tauto|].
  split; [reflexivity|]. split; [reflexivity|]. split; [reflexivity|].
  intros (_ & (p & Hp & Hle) & _).
  change (CFlt (Fin (-5)) = CFlt (Fin p)) in Hp. injection Hp as <-.
  unfold Qle in Hle. simpl in Hle. lia.
Qed.

(** Claim C2 at the failing input.  The second line of the table has
    no Availability; [load_data] keeps it, with the text [nan] as its
    availability. *)
Theorem C2_null_availability_kept :
  isnull (get (columns null_availability_frame) "Availability"
            [CStr "Tipping the Velvet"; CStr (pound +:+ "53.74"); CStr "One";
             missing]) = true
  ∧ load_data null_availability_frame
    = Loaded
        (mkDataFrame ["Title"; "Price"; "Rating"; "Availability"]
           [ [CStr "A Light in the Attic"; CFlt (Fin (5177 # 100));
              CFlt (Fin 3); CStr "In stock"];
             [CStr "Tipping the Velvet"; CFlt (Fin (2687 # 50));
              CFlt (Fin 1); CStr "nan"] ]).
Proof. split; vm_compute; reflexivity. Qed.

(** Claim C3, as stated, fails.  The scenario frame is canonical: the
    four headers, and in every row a title, a price not below zero, a rating
    among 1..5 held as a float, and an availability.  [load_data] reads the
    rating 3.0 back as the text [3.0], which is neither digits only nor a
    rating word, and drops every row. *)
Lemma C3_counterexample :
  columns scenario_frame = required_cols
  ∧ Forall (claimed_canonical_row (columns scenario_frame)) (rows scenario_frame)
  ∧ clean_rating (CFlt (Fin 3)) = Some NaN
  ∧ load_data scenario_frame = Loaded (mkDataFrame required_cols [])
  ∧ load_data scenario_frame ≠ Loaded scenario_frame.
Proof.
  split; [reflexivity|]. split.
  { unfold scenario_frame. cbn [rows columns].
    repeat constructor.
    - by eexists.
    - exists 10%Q. split; [reflexivity|]. unfold Qle. simpl. lia.
    - exists 3%Q, 3%Z. split; [reflexivity|]. split; [reflexivity|lia].
    - by eexists.
    - by eexists.
    - exists 50%Q. split; [reflexivity|]. unfold Qle. simpl. lia.
    - exists 5%Q, 5%Z. split; [reflexivity|]. split; [reflexivity|lia].
    - by eexists. }
  split; [vm_compute; reflexivity|].
  assert (load_data scenario_frame = Loaded (mkDataFrame required_cols [])) as H
    by (vm_compute; reflexivity).
  split; [exact H|]. rewrite H. discriminate.
Qed.

(** Claim C3, amended.  On a frame with the four canonical headers whose
    rows have a title, a price, a whole-number rating held as an integer and
    a trimmed availability, [load_data] returns the frame with the same
    header and, row for row and in the same order, the same title, the same
    availability and, as numbers, the same price and the same rating: no row
    is dropped. *)
Theorem C3_integer_ratings_kept (rows0 : list (list cell)) :
  Forall integer_rated_row rows0 →
  load_data (mkDataFrame required_cols rows0)
  = Loaded (mkDataFrame required_cols (as_float_ratings <$> rows0))
  ∧ Forall2 same_values rows0 (as_float_ratings <$> rows0).
Proof.
  intros Hrows. split.
  - rewrite load_data_loaded by reflexivity.
    rewrite resolved_canonical. unfold dropna. cbn [columns rows].
    by rewrite (integer_rated_rows_kept rows0 Hrows).
  - induction Hrows as [|row rest Hrow _ IH]; [constructor|].
    rewrite fmap_cons. constructor; [|exact IH].
    by destruct (normalized_integer_rated row Hrow) as (_ & _ & ?).
Qed.

(** ** More on what [load_data] keeps and drops *)

Lemma number_ascii_lower c : is_number_ascii c = true → lower_char c = c.
Proof. ascii_cases c; vm_compute; congruence. Qed.

Lemma fin_repr_not_digits q : all_digits (fin_repr q) = false.
Proof.
  unfold fin_repr. rewrite !all_digits_app.
  apply andb_false_iff. right. apply andb_false_iff. right. reflexivity.
Qed.

(** A Rating held as a float never gets through: its text has a point (or
    is [inf] or [nan]), so it is neither digits only nor a rating word. *)
Lemma clean_rating_float x : clean_rating (CFlt x) = Some NaN.
Proof.
  destruct x as [q|[]|]; [|reflexivity..].
  unfold clean_rating. cbn [isnull py_str float_repr].
  destruct (overflows q); [by destruct (Qle_bool 0 q)|].
  pose proof (fin_repr_number_text q) as Htext.
  pose proof (fin_repr_not_digits q) as Hnd.
  rewrite strip_no_space; cycle 1.
  { eapply forall_chars_impl; [|exact Htext].
    intros c Hc. by rewrite (number_ascii_not_space c Hc). }
  unfold match_digits. rewrite Hnd, andb_false_r.
  destruct (word_to_num (lower (fin_repr q))) as [n|] eqn:Hn; [|done].
  apply word_to_num_spec in Hn.
  destruct (fin_repr q) as [|c s]; [discriminate Hnd|].
  cbn [forall_chars] in Htext. apply andb_true_iff in Htext as [Hc _].
  cbn [lower] in Hn. rewrite (number_ascii_lower c Hc) in Hn.
  unfold rating_words in Hn. rewrite !elem_of_cons, elem_of_nil in Hn.
  destruct Hn as [H|[H|[H|[H|[H|[]]]]]]; inversion H; subst; discriminate Hc.
Qed.

(** On a row as wide as the header the mask of [dropna] depends on the
    Title, the Price and the Rating only; the Availability cell plays no
    part, because it has been made a text before. *)
Lemma retained_iff df row :
  missing_of (columns (resolved df)) = [] →
  length row = length (columns (resolved df)) →
  forallb
    (λ name,
       negb (isnull (get (columns (resolved df)) name
                       (normalize_row (columns (resolved df)) row))))
    required_cols = true
  ↔ isnull (get (columns (resolved df)) "Title" row) = false
    ∧ to_numeric (price_text (get (columns (resolved df)) "Price" row)) ≠ NaN
    ∧ clean_rating (get (columns (resolved df)) "Rating" row) ≠ Some NaN.
Proof.
  intros Hnil Hlen. set (cols := columns (resolved df)) in *.
  destruct required_cols_elem as (HT & HP & HR & HA).
  destruct (index_of_elem _ _ (missing_of_nil _ _ Hnil HT)) as [iT HiT].
  destruct (index_of_elem _ _ (missing_of_nil _ _ Hnil HP)) as [iP HiP].
  destruct (index_of_elem _ _ (missing_of_nil _ _ Hnil HR)) as [iR HiR].
  destruct (index_of_elem _ _ (missing_of_nil _ _ Hnil HA)) as [iA HiA].
  cbn [forallb required_cols].
  rewrite (get_normalized_title cols iT iP iR iA HiT HiP HiR HiA).
  rewrite (get_normalized_price cols iP iR iA HiP HiR HiA).
  rewrite (get_normalized_rating cols iP iR iA HiP HiR HiA).
  rewrite (get_normalized_availability cols iP iR iA HiP HiR HiA).
  destruct (row !! iA) as [c|] eqn:Hc; cycle 1.
  { apply lookup_ge_None in Hc. apply index_of_lookup, lookup_lt_Some in HiA. lia. }
  cbn [clean_availability isnull negb]. rewrite !andb_true_r, !andb_true_iff, !negb_true_iff.
  unfold clean_price_cell, rating_cell.
  destruct (clean_rating_defined (get cols "Rating" row)) as [r ->].
  cbn [default isnull]. change (id r) with r.
  destruct (to_numeric (price_text (get cols "Price" row))); destruct r;
    split; intros (? & ? & ?); repeat split; first [done | congruence].
Qed.

(** ** The statements above at concrete inputs *)


(** The cell [ Four ], blanks included, is the rating 4. *)
Lemma C5_clean_rating_witness :
  isnull (CStr " Four ") = false
  ∧ ("four", 4%Z) ∈ rating_words
  ∧ lower (strip (py_str (CStr " Four "))) = "four"
  ∧ clean_rating (CStr " Four ") = Some (Fin 4).
Proof.
  assert (("four", 4%Z) ∈ rating_words) as Hw.
  { unfold rating_words. rewrite !elem_of_cons. tauto. }
  split; [reflexivity|]. split; [exact Hw|]. split; [reflexivity|].
  destruct (C5_clean_rating (CStr " Four ")) as (_ & _ & Hword & _).
  exact (proj1 (Hword eq_refl "four" 4%Z Hw eq_refl)).
Defined.


(** The mask on the first row of the scenario. *)
Lemma C8_filter_witness :
  get (columns scenario_frame) "Price"
    [CStr "first"; CFlt (Fin 10); CFlt (Fin 3); CStr "In stock"]
  = CFlt (Fin 10)
  ∧ price_range scenario_selection = (Fin 0, Fin 100)
  ∧ (selected (columns scenario_frame) scenario_selection
       [CStr "first"; CFlt (Fin 10); CFlt (Fin 3); CStr "In stock"] = true
     ↔ (∃ x, Fin x ∈ selected_ratings scenario_selection ∧ (x == 3)%Q)
       ∧ (0 <= 10)%Q ∧ (10 <= 100)%Q
       ∧ "In stock" ∈ selected_availability scenario_selection).
Proof.
  split; [reflexivity|]. split; [reflexivity|].
  destruct (C8_filter scenario_frame scenario_selection) as (_ & _ & _ & Hsel & _).
  exact (Hsel [CStr "first"; CFlt (Fin 10); CFlt (Fin 3); CStr "In stock"]
           10%Q 3%Q "In stock" 0%Q 100%Q eq_refl eq_refl eq_refl eq_refl).
Defined.

(** In the header Title, Price, Rating the column Price keeps its field. *)
Lemma C4_first_free_field_witness :
  ("Price" ∉ ["Rating"])
  ∧ resolve_columns (["Title"] ++ "Price" :: ["Rating"]) !! "Price"
    = resolve_column (resolve_columns ["Title"]) "Price" !! "Price".
Proof.
  assert ("Price" ∉ ["Rating"]) as Hc.
  { apply not_elem_of_cons. split; [discriminate | apply not_elem_of_nil]. }
  split; [exact Hc|].
  destruct C4_first_free_field as (_ & _ & _ & Hlast).
  exact (Hlast ["Title"] "Price" ["Rating"] Hc).
Defined.

(** A table with a title and a price only: Rating and Availability are reported. *)
Lemma C6_missing_columns_witness :
  "Rating" ∈ required_cols
  ∧ ("Rating" ∉ columns (resolved (mkDataFrame [" title"; "Price"] [])))
  ∧ load_data (mkDataFrame [" title"; "Price"] [])
    = MissingColumns ["Rating"; "Availability"].
Proof.
  assert ("Rating" ∈ required_cols) as Hf.
  { unfold required_cols. rewrite !elem_of_cons. tauto. }
  assert ("Rating" ∉ columns (resolved (mkDataFrame [" title"; "Price"] [])))
    as Hc.
  { change (columns (resolved (mkDataFrame [" title"; "Price"] [])))
      with ["Title"; "Price"].
    rewrite !not_elem_of_cons. repeat split; try discriminate. apply not_elem_of_nil. }
  split; [exact Hf|]. split; [exact Hc|].
  destruct (C6_missing_columns (mkDataFrame [" title"; "Price"] []))
    as (_ & _ & Hload & _).
  exact (proj1 (Hload "Rating" Hf Hc)).
Defined.

(** The second line of [odd_values_frame] and the row it comes from. *)
Lemma C1_retained_rows_witness :
  load_data odd_values_frame
  = Loaded (mkDataFrame ["Title"; "Price"; "Rating"; "Availability"]
              [ [CStr "A Light in the Attic"; CFlt (Fin (5177 # 100));
                 CFlt (Fin 3); CStr "In stock"];
                [CStr "Soumission"; CFlt (Fin (-5)); CFlt (Fin 7); CStr ""] ])
  ∧ ∃ row,
      row ∈ rows (resolved odd_values_frame)
      ∧ (∃ n : N,
           CFlt (Fin 7) = CFlt (Fin (inject_Z (Z.of_N n)))
           ∧ clean_rating (get (columns (resolved odd_values_frame)) "Rating" row)
             = Some (Fin (inject_Z (Z.of_N n)))).
Proof.
  assert (load_data odd_values_frame
          = Loaded (mkDataFrame ["Title"; "Price"; "Rating"; "Availability"]
                      [ [CStr "A Light in the Attic"; CFlt (Fin (5177 # 100));
                         CFlt (Fin 3); CStr "In stock"];
                        [CStr "Soumission"; CFlt (Fin (-5)); CFlt (Fin 7);
                         CStr ""] ])) as Hload by (vm_compute; reflexivity).
  split; [exact Hload|].
  assert ([CStr "Soumission"; CFlt (Fin (-5)); CFlt (Fin 7); CStr ""]
          ∈ rows (mkDataFrame ["Title"; "Price"; "Rating"; "Availability"]
                    [ [CStr "A Light in the Attic"; CFlt (Fin (5177 # 100));
                       CFlt (Fin 3); CStr "In stock"];
                      [CStr "Soumission"; CFlt (Fin (-5)); CFlt (Fin 7);
                       CStr ""] ])) as Hin.
  { cbn [rows]. rewrite !elem_of_cons. tauto. }
  destruct (C1_retained_rows odd_values_frame _ Hload _ Hin)
    as (row & Hrow & _ & _ & _ & Hrating & _).
  exists row. split; [exact Hrow | exact Hrating].
Defined.

(** A one-line frame with an integer rating comes back with its line. *)
Lemma C3_integer_ratings_kept_witness :
  Forall integer_rated_row
    [[CStr "A Light in the Attic"; CFlt (Fin (5177 # 100)); CInt 3;
      CStr "In stock"]]
  ∧ load_data
      (mkDataFrame required_cols
         [[CStr "A Light in the Attic"; CFlt (Fin (5177 # 100)); CInt 3;
           CStr "In stock"]])
    = Loaded
        (mkDataFrame required_cols
           [[CStr "A Light in the Attic"; CFlt (Fin (5177 # 100));
             CFlt (Fin 3); CStr "In stock"]]).
Proof.
  assert (Forall integer_rated_row
            [[CStr "A Light in the Attic"; CFlt (Fin (5177 # 100)); CInt 3;
              CStr "In stock"]]) as Hrows.
  { constructor; [|constructor].
    exists (CStr "A Light in the Attic"), (5177 # 100)%Q, 3%Z, "In stock".
    split; [reflexivity|]. split; [reflexivity|]. split.
    - exists 5177000000000000000%Z. reflexivity.
    - split; [reflexivity|]. split; [lia | reflexivity]. }
  split; [exact Hrows|].
  exact (proj1 (C3_integer_ratings_kept _ Hrows)).
Defined.

(* ===================================================================== *)
(** * Part III: further properties of the code *)
(* ===================================================================== *)

(** ** The frame that [load_data] returns *)

Lemma dedupe_from_NoDup seen cols :
  NoDup (select_mask (negb <$> duplicated_from seen cols) cols).
Proof.
  revert seen. induction cols as [|c cols IH]; intros seen; simpl; [constructor|].
  case_bool_decide as Hc; simpl; [apply IH|].
  constructor; [|apply IH].
  rewrite dedupe_from_elem, not_elem_of_cons. tauto.
Qed.

Lemma filter_sublist {A : Type} (f : A → bool) (l : list A) :
  List.filter f l `sublist_of` l.
Proof.
  induction l as [|x l IH]; simpl; [constructor|].
  destruct (f x); [by apply sublist_skip | by apply sublist_cons].
Qed.

Lemma loaded_frame df out :
  load_data df = Loaded out →
  missing_of (columns (resolved df)) = []
  ∧ out = dropna required_cols
            (mkDataFrame (columns (resolved df))
               (normalize_row (columns (resolved df)) <$> rows (resolved df))).
Proof.
  intros Hload. destruct (load_data_cases df) as [[_ Hm]|[Hnil Hl]]; [congruence|].
  split; [exact Hnil | congruence].
Qed.

(** After a successful load the header has no name twice, has the four
    canonical names, and is made of the renamed headers of the table. *)
Theorem loaded_header (df out : DataFrame) :
  load_data df = Loaded out →
  NoDup (columns out)
  ∧ (∀ f, f ∈ required_cols → f ∈ columns out)
  ∧ (∀ c, c ∈ columns out ↔ c ∈ renamed df).
Proof.
  intros Hload. destruct (loaded_frame df out Hload) as [Hnil ->].
  cbn [dropna columns]. split; [|split].
  - unfold resolved, kept, duplicated. cbn [columns]. apply dedupe_from_NoDup.
  - intros f Hf. by apply missing_of_nil.
  - intros c. apply resolved_columns_elem.
Qed.

Lemma get_normalized_other cols name row :
  name ∉ ["Price"; "Rating"; "Availability"] →
  get cols name (normalize_row cols row) = get cols name row.
Proof.
  rewrite !not_elem_of_cons. intros (HnP & HnR & HnA & _).
  unfold normalize_row.
  destruct (index_of "Price" cols) as [iP|] eqn:HiP; [|done].
  destruct (index_of "Rating" cols) as [iR|] eqn:HiR; [|done].
  destruct (index_of "Availability" cols) as [iA|] eqn:HiA; [|done].
  destruct (index_of name cols) as [j|] eqn:Hj; cycle 1.
  { unfold get. by rewrite Hj. }
  rewrite (get_alter_other cols name iA j); [|done|];
    [|intros ->; by destruct (HnA (index_of_inj _ _ _ _ Hj HiA))].
  rewrite (get_alter_other cols name iR j); [|done|];
    [|intros ->; by destruct (HnR (index_of_inj _ _ _ _ Hj HiR))].
  rewrite (get_alter_other cols name iP j); [|done|];
    [|intros ->; by destruct (HnP (index_of_inj _ _ _ _ Hj HiP))].
  reflexivity.
Qed.

(** [load_data] never reorders, repeats or invents a row: what it returns
    is, in the order of the table, some of the table's rows with their
    Price, Rating and Availability cells rewritten; every other cell, the
    Title and any extra column, is carried over as it is. *)
Theorem loaded_rows_in_order (df out : DataFrame) :
  load_data df = Loaded out →
  rows out
    `sublist_of` (normalize_row (columns out)
                  <$> (select_mask (kept df) <$> rows df))
  ∧ length (rows out) ≤ length (rows df)
  ∧ ∀ row name,
      name ∉ ["Price"; "Rating"; "Availability"] →
      get (columns out) name (normalize_row (columns out) row)
      = get (columns out) name row.
Proof.
  intros Hload. destruct (loaded_frame df out Hload) as [Hnil ->].
  cbn [dropna columns rows].
  assert (List.filter
            (λ row, forallb
                      (λ name, negb (isnull (get (columns (resolved df)) name row)))
                      required_cols)
            (normalize_row (columns (resolved df)) <$> rows (resolved df))
          `sublist_of` (normalize_row (columns (resolved df))
                        <$> (select_mask (kept df) <$> rows df))) as Hsub
    by apply filter_sublist.
  split; [exact Hsub|]. split.
  - apply sublist_length in Hsub. by rewrite !length_fmap in Hsub.
  - intros row name. apply get_normalized_other.
Qed.

(** ** Trimming *)

Lemma lstrip_head s :
  match lstrip s with
  | EmptyString => True
  | String c _ => py_isspace c = false
  end.
Proof.
  induction s as [|c s IH]; simpl; [done|].
  destruct (py_isspace c) eqn:Hc; [exact IH | exact Hc].
Qed.

Lemma rstrip_rstrip s : rstrip (rstrip s) = rstrip s.
Proof.
  induction s as [|c s IH]; simpl; [done|].
  destruct (py_isspace c && str_empty (rstrip s)) eqn:Hc; [done|].
  simpl. by rewrite IH, Hc.
Qed.

Lemma lstrip_rstrip_head s :
  match s with
  | EmptyString => True
  | String c _ => py_isspace c = false
  end →
  lstrip (rstrip s) = rstrip s.
Proof.
  destruct s as [|c s]; simpl; [done|]. intros Hc. rewrite Hc. simpl. by rewrite Hc.
Qed.

Lemma strip_strip s : strip (strip s) = strip s.
Proof.
  unfold strip. rewrite (lstrip_rstrip_head (lstrip s) (lstrip_head s)).
  apply rstrip_rstrip.
Qed.

(** A text that [strip] leaves alone neither starts nor ends with a
    blank. *)
Lemma rstrip_fixed_end s t c :
  rstrip s = s → s = t +:+ String c "" → py_isspace c = false.
Proof.
  revert s. induction t as [|a t IH]; intros s Hs ->.
  - simpl in Hs. destruct (py_isspace c); [discriminate Hs | done].
  - rewrite append_cons in Hs. simpl in Hs.
    destruct (py_isspace a && str_empty (rstrip (t +:+ String c ""))) eqn:Ha.
    + discriminate Hs.
    + injection Hs as Hs. by apply (IH _ Hs).
Qed.

Lemma strip_fixed_ends s :
  strip s = s →
  (∀ c t, s = String c t → py_isspace c = false)
  ∧ (∀ t c, s = t +:+ String c "" → py_isspace c = false).
Proof.
  intros Hs. split.
  - intros c t ->. pose proof (lstrip_head (String c t)) as Hh.
    unfold strip in Hs.
    destruct (py_isspace c) eqn:Hc; [|done].
    exfalso. simpl in Hs. rewrite Hc in Hs.
    assert (String.length (rstrip (lstrip t)) ≤ String.length t) as Hlen.
    { clear. transitivity (String.length (lstrip t)).
      - generalize (lstrip t). intros u. induction u as [|a u IH]; simpl; [done|].
        destruct (py_isspace a && str_empty (rstrip u)); simpl; lia.
      - induction t as [|a t IH]; simpl; [done|].
        destruct (py_isspace a); simpl; lia. }
    rewrite Hs in Hlen. simpl in Hlen. lia.
  - intros t c Hst.
    assert (rstrip s = s) as Hr.
    { rewrite <- Hs at 1. unfold strip. rewrite rstrip_rstrip. exact Hs. }
    by apply (rstrip_fixed_end s t c).
Qed.

(** Every Availability of the frame that [load_data] returns is a trimmed
    text: trimming it again changes nothing, and it neither starts nor ends
    with a blank. *)
Theorem loaded_availability_trimmed (df out : DataFrame) :
  load_data df = Loaded out →
  ∀ row, row ∈ rows out →
    ∃ a, get (columns out) "Availability" row = CStr a
         ∧ strip a = a
         ∧ (∀ c t, a = String c t → py_isspace c = false)
         ∧ (∀ t c, a = t +:+ String c "" → py_isspace c = false).
Proof.
  intros Hload row Hrow. destruct (loaded_frame df out Hload) as [Hnil ->].
  remember (resolved df) as df1 eqn:Hdf1. clear Hdf1 Hload.
  set (cols := columns df1) in *.
  apply dropna_elem in Hrow as [Hin Hnn]. cbn [rows columns] in Hin, Hnn.
  apply list_elem_of_fmap in Hin as (row0 & -> & _).
  destruct required_cols_elem as (_ & HP & HR & HA).
  destruct (index_of_elem _ _ (missing_of_nil _ _ Hnil HP)) as [iP HiP].
  destruct (index_of_elem _ _ (missing_of_nil _ _ Hnil HR)) as [iR HiR].
  destruct (index_of_elem _ _ (missing_of_nil _ _ Hnil HA)) as [iA HiA].
  pose proof (Hnn _ HA) as HnA. cbn [dropna columns].
  rewrite (get_normalized_availability cols iP iR iA HiP HiR HiA) in HnA |- *.
  destruct (row0 !! iA) as [c|]; [|done].
  exists (strip (py_str c)). split; [done|].
  split; [apply strip_strip|]. apply strip_fixed_ends, strip_strip.
Qed.

(** ** Which rows are kept *)

(** For a row as wide as the header, being kept by [load_data] depends on
    three cells only: the Title is there, the Price reads as a number and
    the Rating reads as a number.  What the Availability cell holds, or
    whether it is missing, makes no difference. *)
Theorem loaded_rows_criterion (df out : DataFrame) :
  load_data df = Loaded out →
  ∀ row,
    row ∈ rows (resolved df) →
    length row = length (columns (resolved df)) →
    normalize_row (columns (resolved df)) row ∈ rows out
    ↔ isnull (get (columns (resolved df)) "Title" row) = false
      ∧ to_numeric (price_text (get (columns (resolved df)) "Price" row)) ≠ NaN
      ∧ clean_rating (get (columns (resolved df)) "Rating" row) ≠ Some NaN.
Proof.
  intros Hload row Hrow Hlen. destruct (loaded_frame df out Hload) as [Hnil ->].
  rewrite <- (retained_iff df row Hnil Hlen).
  rewrite dropna_elem. cbn [rows columns]. rewrite forallb_forall. split.
  - intros [_ Hall] name Hname. apply negb_true_iff, Hall. by apply list_elem_of_In.
  - intros Hall. split.
    + apply list_elem_of_fmap. by exists row.
    + intros name Hname. apply negb_true_iff, Hall. by apply list_elem_of_In.
Qed.

(** A Rating held as a float is always read as NaN: its text, [3.0] for 3,
    is neither digits only nor a rating word.  So no row with such a Rating
    is kept, and a table whose Rating column holds floats loads as a frame
    without rows. *)
Theorem float_ratings_dropped (df out : DataFrame) :
  load_data df = Loaded out →
  (∀ x, clean_rating (CFlt x) = Some NaN)
  ∧ (∀ row x,
       get (columns (resolved df)) "Rating" row = CFlt x →
       normalize_row (columns (resolved df)) row ∉ rows out)
  ∧ ((∀ row, row ∈ rows (resolved df) →
        ∃ x, get (columns (resolved df)) "Rating" row = CFlt x) →
     rows out = []).
Proof.
  intros Hload. destruct (loaded_frame df out Hload) as [Hnil ->].
  remember (resolved df) as df1 eqn:Hdf1. clear Hdf1 Hload.
  set (cols := columns df1) in *.
  destruct required_cols_elem as (_ & HP & HR & HA).
  destruct (index_of_elem _ _ (missing_of_nil _ _ Hnil HP)) as [iP HiP].
  destruct (index_of_elem _ _ (missing_of_nil _ _ Hnil HR)) as [iR HiR].
  destruct (index_of_elem _ _ (missing_of_nil _ _ Hnil HA)) as [iA HiA].
  assert (∀ row x, get cols "Rating" row = CFlt x →
                   isnull (get cols "Rating" (normalize_row cols row)) = true)
    as Hnull.
  { intros row x Hx.
    rewrite (get_normalized_rating cols iP iR iA HiP HiR HiA), Hx.
    unfold rating_cell. by rewrite clean_rating_float. }
  split; [apply clean_rating_float|]. split.
  - intros row x Hx Hin. apply dropna_elem in Hin as [_ Hnn].
    cbn [columns] in Hnn. specialize (Hnn _ HR).
    by rewrite (Hnull row x Hx) in Hnn.
  - intros Hall. destruct (rows (dropna required_cols _)) as [|r rest] eqn:Hrows;
      [done|].
    assert (r ∈ rows (dropna required_cols
                        (mkDataFrame cols (normalize_row cols <$> rows df1))))
      as Hr by (rewrite Hrows; apply elem_of_cons; by left).
    apply dropna_elem in Hr as [Hin Hnn]. cbn [rows columns] in Hin, Hnn.
    apply list_elem_of_fmap in Hin as (row & -> & Hrow).
    destruct (Hall row Hrow) as [x Hx]. specialize (Hnn _ HR).
    by rewrite (Hnull row x Hx) in Hnn.
Qed.

(** ** Headers that are accepted *)

Lemma named_field_assigned cols f kws c :
  NoDup cols → (f, kws) ∈ keywords → c ∈ cols → names_only (f, kws) c →
  in_values f (resolve_columns cols) = true.
Proof.
  intros Hnd Hin Hc [Hkw Honly].
  apply list_elem_of_split in Hc as (pre & suf & ->).
  apply NoDup_app in Hnd as (_ & Hpre & Hsuf).
  apply NoDup_cons in Hsuf as [Hcsuf _].
  apply in_values_spec.
  destruct (first_free (resolve_columns pre) c) as [g|] eqn:Hg.
  - exists c. rewrite (resolve_columns_first_wins pre c suf Hcsuf).
    rewrite resolve_columns_snoc, resolve_column_first_free, Hg, lookup_insert_eq.
    f_equal. apply first_free_some in Hg as (_ & _ & kws' & Hin' & Hkw').
    destruct (decide ((g, kws') = (f, kws))) as [Heq|Hne]; [by inversion Heq|].
    rewrite (Honly _ Hin' Hne) in Hkw'. discriminate Hkw'.
  - pose proof (first_free_none _ _ _ _ Hg Hin Hkw) as Hv.
    apply in_values_spec in Hv as [k Hk]. exists k.
    pose proof (resolve_columns_key _ _ _ Hk) as Hkpre.
    unfold resolve_columns. rewrite foldl_app.
    rewrite foldl_resolve_other; [exact Hk | exact (Hpre k Hkpre)].
Qed.

(** A table is accepted whenever its headers differ after trimming and each
    of the four fields has a header with its keyword and no other field's,
    in any order, in any case and with any other columns around. *)
Theorem header_accepted (df : DataFrame) :
  NoDup (stripped df) →
  (∀ entry, entry ∈ keywords → ∃ c, c ∈ stripped df ∧ names_only entry c) →
  (∀ f, f ∈ required_cols → in_values f (resolve_columns (stripped df)) = true)
  ∧ ∃ out, load_data df = Loaded out.
Proof.
  intros Hnd Hall.
  assert (∀ f, f ∈ required_cols →
               in_values f (resolve_columns (stripped df)) = true) as Hv.
  { intros f Hf. destruct (required_keyword f Hf) as (kws & Hin & _).
    destruct (Hall _ Hin) as (c & Hc & Honly).
    by apply (named_field_assigned _ f kws c). }
  split; [exact Hv|].
  assert (missing_of (columns (resolved df)) = []) as Hnil.
  { destruct (missing_of (columns (resolved df))) as [|f l] eqn:Hm; [done|].
    assert (f ∈ missing_of (columns (resolved df))) as Hf
      by (rewrite Hm; apply elem_of_cons; by left).
    apply missing_of_spec in Hf as [Hf Hnot]. destruct Hnot.
    apply resolved_columns_elem, (renamed_elem_in_values df f Hnd Hf), Hv, Hf. }
  eexists. by apply load_data_loaded.
Qed.

(** ** Bounds on the KPIs *)











(** ** The order on floats *)

Lemma fle_refl x : notnan x = true → fle x x = true.
Proof.
  destruct x as [q|[]|]; simpl; try done. intros _. apply Qle_bool_iff, Qle_refl.
Qed.

Lemma fle_total x y :
  notnan x = true → notnan y = true → fle x y = true ∨ fle y x = true.
Proof.
  destruct x as [a|[]|], y as [b|[]|]; simpl; try tauto; try done.
  intros _ _. destruct (Qlt_le_dec a b) as [H|H].
  - left. apply Qle_bool_iff, Qlt_le_weak, H.
  - right. apply Qle_bool_iff, H.
Qed.

Lemma fle_trans x y z : fle x y = true → fle y z = true → fle x z = true.
Proof.
  destruct x as [a|[]|], y as [b|[]|], z as [c|[]|]; simpl; try done.
  rewrite !Qle_bool_iff. apply Qle_trans.
Qed.

Lemma fsame_refl x : fsame x x = true.
Proof.
  destruct x as [q|[]|]; simpl; try done. apply Qeq_bool_iff. reflexivity.
Qed.

Lemma fold_fmin_least x xs :
  notnan x = true → (∀ y, y ∈ xs → notnan y = true) →
  fle (foldl fmin x xs) x = true
  ∧ ∀ y, y ∈ xs → fle (foldl fmin x xs) y = true.
Proof.
  revert x. induction xs as [|z xs IH]; intros x Hx Hall.
  - split; [by apply fle_refl | intros y Hy; by apply elem_of_nil in Hy].
  - assert (notnan z = true) as Hz by (apply Hall, elem_of_cons; by left).
    assert (∀ y, y ∈ xs → notnan y = true) as Hall'
      by (intros y Hy; apply Hall, elem_of_cons; by right).
    cbn [foldl]. unfold fmin at 2 4. destruct (fle z x) eqn:Hzx.
    + destruct (IH z Hz Hall') as [Hm Hrest]. split.
      * by apply (fle_trans _ z).
      * intros y Hy. apply elem_of_cons in Hy as [->|Hy]; [done | by apply Hrest].
    + destruct (IH x Hx Hall') as [Hm Hrest].
      destruct (fle_total x z Hx Hz) as [Hxz|Hzx']; [|congruence].
      split; [done|].
      intros y Hy. apply elem_of_cons in Hy as [->|Hy];
        [by apply (fle_trans _ x) | by apply Hrest].
Qed.

Lemma fold_fmax_greatest x xs :
  notnan x = true → (∀ y, y ∈ xs → notnan y = true) →
  fle x (foldl fmax x xs) = true
  ∧ ∀ y, y ∈ xs → fle y (foldl fmax x xs) = true.
Proof.
  revert x. induction xs as [|z xs IH]; intros x Hx Hall.
  - split; [by apply fle_refl | intros y Hy; by apply elem_of_nil in Hy].
  - assert (notnan z = true) as Hz by (apply Hall, elem_of_cons; by left).
    assert (∀ y, y ∈ xs → notnan y = true) as Hall'
      by (intros y Hy; apply Hall, elem_of_cons; by right).
    cbn [foldl]. unfold fmax at 2 4. destruct (fle x z) eqn:Hxz.
    + destruct (IH z Hz Hall') as [Hm Hrest]. split.
      * by apply (fle_trans _ z).
      * intros y Hy. apply elem_of_cons in Hy as [->|Hy]; [done | by apply Hrest].
    + destruct (IH x Hx Hall') as [Hm Hrest].
      destruct (fle_total x z Hx Hz) as [Hxz'|Hzx]; [congruence|].
      split; [done|].
      intros y Hy. apply elem_of_cons in Hy as [->|Hy];
        [by apply (fle_trans _ x) | by apply Hrest].
Qed.

Lemma filter_notnan_elem (xs : list pyfloat) y :
  y ∈ List.filter notnan xs ↔ y ∈ xs ∧ notnan y = true.
Proof. rewrite !list_elem_of_In. apply filter_In. Qed.

(** [Series.min()] is below and [Series.max()] above every value of the
    series that is not missing. *)
Lemma series_min_max_bound (s : list cell) c :
  c ∈ s → notnan (num_of c) = true →
  fle (series_min s) (num_of c) = true ∧ fle (num_of c) (series_max s) = true.
Proof.
  intros Hc Hn.
  assert (num_of c ∈ List.filter notnan (num_of <$> s)) as Hin.
  { apply filter_notnan_elem. split; [|done]. apply list_elem_of_fmap. by exists c. }
  unfold series_min, series_max.
  destruct (List.filter notnan (num_of <$> s)) as [|x xs] eqn:Hf;
    [by apply elem_of_nil in Hin|].
  assert (∀ y, y ∈ x :: xs → notnan y = true) as Hall.
  { intros y Hy. rewrite <- Hf in Hy. by apply filter_notnan_elem in Hy as [_ ?]. }
  assert (notnan x = true) as Hx by (apply Hall, elem_of_cons; by left).
  assert (∀ y, y ∈ xs → notnan y = true) as Hall'
    by (intros y Hy; apply Hall, elem_of_cons; by right).
  destruct (fold_fmin_least x xs Hx Hall') as [Hm1 Hm2].
  destruct (fold_fmax_greatest x xs Hx Hall') as [HM1 HM2].
  apply elem_of_cons in Hin as [->|Hin]; [done|].
  split; [by apply Hm2 | by apply HM2].
Qed.

(** ** [unique] and [sorted] *)

Lemma unique_from_covers {A : Type} (same : A → A → bool) seen l x :
  (∀ y, same y y = true) → x ∈ l →
  existsb (same x) seen = true ∨ existsb (same x) (unique_from same seen l) = true.
Proof.
  intros Hrefl. revert seen. induction l as [|z l IH]; intros seen Hx;
    [by apply elem_of_nil in Hx|].
  apply elem_of_cons in Hx as [->|Hx]; simpl.
  - destruct (existsb (same z) seen) eqn:Hz; [by left|].
    right. simpl. by rewrite Hrefl.
  - destruct (existsb (same z) seen) eqn:Hz; [by apply IH|].
    destruct (IH (z :: seen) Hx) as [H|H].
    + simpl in H. apply orb_true_iff in H as [H|H].
      * right. simpl. by rewrite H.
      * by left.
    + right. simpl. rewrite H. apply orb_true_r.
Qed.

Lemma unique_covers {A : Type} (same : A → A → bool) l x :
  (∀ y, same y y = true) → x ∈ l → existsb (same x) (unique same l) = true.
Proof.
  intros Hrefl Hx. by destruct (unique_from_covers same [] l x Hrefl Hx).
Qed.

Lemma insert_sorted_elem x l y : y ∈ insert_sorted x l ↔ y = x ∨ y ∈ l.
Proof.
  induction l as [|z l IH]; simpl.
  - rewrite elem_of_cons, elem_of_nil. tauto.
  - destruct (flt z x); rewrite !elem_of_cons; [rewrite IH|]; tauto.
Qed.

Lemma py_sorted_elem xs y : y ∈ py_sorted xs ↔ y ∈ xs.
Proof.
  induction xs as [|x xs IH]; simpl; [done|].
  rewrite insert_sorted_elem, elem_of_cons, IH. tauto.
Qed.

Lemma existsb_elem_ext {A : Type} (f : A → bool) (l k : list A) :
  (∀ y, y ∈ l → y ∈ k) → existsb f l = true → existsb f k = true.
Proof.
  intros Hsub. rewrite !existsb_exists. intros (y & Hy & Hf).
  exists y. split; [|done]. apply list_elem_of_In, Hsub, list_elem_of_In, Hy.
Qed.

(** ** The default selection *)

(** The shape of the rows of a loaded frame: a float that is not NaN as
    Price and as Rating, a text as Availability. *)
Lemma loaded_row_shape df0 df row :
  load_data df0 = Loaded df → row ∈ rows df →
  (∃ p, get (columns df) "Price" row = CFlt p ∧ notnan p = true)
  ∧ (∃ r, get (columns df) "Rating" row = CFlt r ∧ notnan r = true)
  ∧ (∃ a, get (columns df) "Availability" row = CStr a).
Proof.
  intros Hload Hrow. destruct (loaded_frame df0 df Hload) as [Hnil ->].
  remember (resolved df0) as df1 eqn:Hdf1. clear Hdf1 Hload.
  set (cols := columns df1) in *.
  apply dropna_elem in Hrow as [Hin Hnn]. cbn [rows columns] in Hin, Hnn.
  apply list_elem_of_fmap in Hin as (row0 & -> & _).
  destruct required_cols_elem as (_ & HP & HR & HA).
  destruct (index_of_elem _ _ (missing_of_nil _ _ Hnil HP)) as [iP HiP].
  destruct (index_of_elem _ _ (missing_of_nil _ _ Hnil HR)) as [iR HiR].
  destruct (index_of_elem _ _ (missing_of_nil _ _ Hnil HA)) as [iA HiA].
  pose proof (Hnn _ HP) as HnP. pose proof (Hnn _ HR) as HnR.
  pose proof (Hnn _ HA) as HnA. cbn [dropna columns].
  rewrite (get_normalized_price cols iP iR iA HiP HiR HiA) in HnP |- *.
  rewrite (get_normalized_rating cols iP iR iA HiP HiR HiA) in HnR |- *.
  rewrite (get_normalized_availability cols iP iR iA HiP HiR HiA) in HnA |- *.
  split; [|split].
  - unfold clean_price_cell in HnP |- *. eexists. split; [reflexivity|].
    by destruct (to_numeric _).
  - unfold rating_cell in HnR |- *. eexists. split; [reflexivity|].
    by destruct (default NaN _).
  - destruct (row0 !! iA) as [c|]; [by eexists | done].
Qed.

Lemma column_elem df name row : row ∈ rows df → get (columns df) name row ∈ column df name.
Proof. intros Hrow. unfold column. apply list_elem_of_fmap. by exists row. Qed.

Lemma string_eqb_refl s : String.eqb s s = true.
Proof. apply String.eqb_refl. Qed.

(** A row with a number as Price and as Rating and a text as Availability
    passes the default selection of its own frame. *)
Lemma default_selection_row df row :
  row ∈ rows df →
  (∃ p, get (columns df) "Price" row = CFlt p ∧ notnan p = true) →
  (∃ r, get (columns df) "Rating" row = CFlt r ∧ notnan r = true) →
  (∃ a, get (columns df) "Availability" row = CStr a) →
  selected (columns df) (default_selection df) row = true.
Proof.
  intros Hrow (p & HP & Hp) (r & HR & Hr) (a & HA).
  unfold selected, default_selection. cbn [selected_ratings price_range
    selected_availability fst snd price_bounds].
  pose proof (column_elem df "Price" row Hrow) as HcP.
  pose proof (column_elem df "Rating" row Hrow) as HcR.
  pose proof (column_elem df "Availability" row Hrow) as HcA.
  rewrite HP, HR, HA in *.
  destruct (series_min_max_bound (column df "Price") (CFlt p) HcP Hp) as [Hmin Hmax].
  rewrite Hmin, Hmax. rewrite !andb_true_r. apply andb_true_iff. split.
  - cbn [isin_floats num_of]. unfold rating_options.
    apply (existsb_elem_ext _ (unique fsame (num_of <$> series_dropna (column df "Rating")))).
    { intros y Hy. by apply py_sorted_elem. }
    apply unique_covers; [apply fsame_refl|].
    apply list_elem_of_fmap. exists (CFlt r). split; [done|].
    unfold series_dropna. apply list_elem_of_In, filter_In.
    split; [by apply list_elem_of_In|]. by destruct r.
  - cbn [isin_strings]. apply bool_decide_eq_true. unfold avail_options.
    assert (a ∈ omap cell_text (column df "Availability")) as Ha.
    { apply list_elem_of_omap. by exists (CStr a). }
    pose proof (unique_covers String.eqb _ a string_eqb_refl Ha) as Hex.
    apply existsb_exists in Hex as (b & Hb & Hab).
    apply String.eqb_eq in Hab. subst b. by apply list_elem_of_In.
Qed.

(** With the selections that the widgets are given as defaults, all the
    rating options, the full price range and all the availabilities, the
    filter changes nothing: the view of a frame that [load_data] returned is
    the frame itself, all its rows in their order. *)
Theorem default_selection_keeps_all (df0 df : DataFrame) :
  load_data df0 = Loaded df →
  filter_df df (default_selection df) = df.
Proof.
  intros Hload. unfold filter_df.
  rewrite forallb_filter_id; [by destruct df|].
  apply forallb_forall. intros row Hrow. apply list_elem_of_In in Hrow.
  destruct (loaded_row_shape df0 df row Hload Hrow) as (HP & HR & HA).
  by apply default_selection_row.
Qed.

(** ** Filtered views *)


Lemma existsb_sublist {A : Type} (f : A → bool) (l k : list A) :
  l `sublist_of` k → existsb f k = false → existsb f l = false.
Proof.
  induction 1 as [|x l k _ IH|x l k _ IH]; simpl; [done| |].
  - rewrite !orb_false_iff. intros [-> Hk]. by rewrite (IH Hk).
  - rewrite orb_false_iff. intros [_ Hk]. exact (IH Hk).
Qed.

Lemma forallb_sublist {A : Type} (f : A → bool) (l k : list A) :
  l `sublist_of` k → forallb f k = true → forallb f l = true.
Proof.
  induction 1 as [|x l k _ IH|x l k _ IH]; simpl; [done| |].
  - rewrite !andb_true_iff. intros [-> Hk]. by rewrite (IH Hk).
  - rewrite andb_true_iff. intros [_ Hk]. exact (IH Hk).
Qed.

Lemma column_filter_sublist df sel name :
  column (filter_df df sel) name `sublist_of` column df name.
Proof.
  unfold column. cbn [filter_df columns rows]. apply fmap_sublist, filter_sublist.
Qed.

(** A view of a frame that is fit for [calculate_kpis] is fit as well. *)
Lemma kpi_ready_filter df sel : kpi_ready df → kpi_ready (filter_df df sel).
Proof.
  intros (HP & HR & HA). split; [|split].
  - exact (existsb_sublist _ _ _ (column_filter_sublist df sel "Price") HP).
  - exact (existsb_sublist _ _ _ (column_filter_sublist df sel "Rating") HR).
  - exact (forallb_sublist _ _ _
             (column_filter_sublist df sel "Availability") HA).
Qed.

(** A frame that [load_data] returned is fit for [calculate_kpis]. *)
Lemma loaded_kpi_ready df0 df : load_data df0 = Loaded df → kpi_ready df.
Proof.
  intros Hload.
  assert (∀ name (P : cell → bool),
            (∀ row, row ∈ rows df → P (get (columns df) name row) = true) →
            forallb P (column df name) = true) as Hall.
  { intros name P HP. apply forallb_forall. intros c Hc.
    apply list_elem_of_In, list_elem_of_fmap in Hc as (row & -> & Hrow).
    by apply HP. }
  assert (∀ name, (∀ row, row ∈ rows df →
                     is_text (get (columns df) name row) = false) →
                  existsb is_text (column df name) = false) as Hnone.
  { intros name HP. apply not_true_is_false. intros Hex.
    apply existsb_exists in Hex as (c & Hc & Htext).
    apply list_elem_of_In, list_elem_of_fmap in Hc as (row & -> & Hrow).
    by rewrite (HP row Hrow) in Htext. }
  split; [|split].
  - apply Hnone. intros row Hrow.
    by destruct (loaded_row_shape df0 df row Hload Hrow) as ((p & -> & _) & _).
  - apply Hnone. intros row Hrow.
    by destruct (loaded_row_shape df0 df row Hload Hrow)
      as (_ & (r & -> & _) & _).
  - apply Hall. intros row Hrow.
    by destruct (loaded_row_shape df0 df row Hload Hrow) as (_ & _ & (a & ->)).
Qed.


(** ** The colours of the availability chart *)

Lemma append_assoc s t u : (s +:+ t) +:+ u = s +:+ t +:+ u.
Proof. induction s as [|c s IH]; [done|]. by rewrite !append_cons, IH. Qed.

(** Every availability that [calculate_kpis] counts as in stock is drawn in
    green, never in red; but green does not tell it apart: [Out of stock]
    has the word [stock] in it and is green as well. *)
Theorem in_stock_is_green (s : string) :
  (str_contains_nocase "In stock" (CStr s) = true →
   availability_color s = "#28a745")
  ∧ (availability_color s = "#dc3545" ↔ contains "stock" (lower s) = false)
  ∧ str_contains_nocase "In stock" (CStr "Out of stock") = false
  ∧ availability_color "Out of stock" = "#28a745".
Proof.
  split; [|split; [|split; reflexivity]].
  - unfold availability_color. cbn [str_contains_nocase].
    change (lower "In stock") with "in stock".
    intros H. apply contains_spec in H as (a & b & H).
    assert (contains "stock" (lower s) = true) as ->; [|done].
    apply contains_spec. exists (a +:+ "in "), b. rewrite H.
    by rewrite append_assoc.
  - unfold availability_color. destruct (contains "stock" (lower s)); split; done.
Qed.

(** ** The responsive sizes *)

(** Whatever the screen width, the four font sizes stay in their ranges and
    in their order, label < base < KPI < header, and a wider screen never
    gets a smaller font; the table is never higher than 250. *)
Theorem font_sizes_ordered (W W' H : Z) :
  (10 <= FONT_SIZE_LABEL W)%Z
  ∧ (FONT_SIZE_LABEL W < FONT_SIZE_BASE W)%Z
  ∧ (12 <= FONT_SIZE_BASE W <= 16)%Z
  ∧ (FONT_SIZE_BASE W < FONT_SIZE_KPI W)%Z
  ∧ (20 <= FONT_SIZE_KPI W <= 28)%Z
  ∧ (FONT_SIZE_KPI W < FONT_SIZE_HEADER W)%Z
  ∧ (24 <= FONT_SIZE_HEADER W <= 32)%Z
  ∧ (TABLE_HEIGHT H <= 250)%Z
  ∧ ((W <= W')%Z →
     (FONT_SIZE_BASE W <= FONT_SIZE_BASE W')%Z
     ∧ (FONT_SIZE_KPI W <= FONT_SIZE_KPI W')%Z
     ∧ (FONT_SIZE_HEADER W <= FONT_SIZE_HEADER W')%Z).
Proof.
  unfold FONT_SIZE_LABEL, FONT_SIZE_BASE, FONT_SIZE_KPI, FONT_SIZE_HEADER,
    TABLE_HEIGHT, int_div.
  assert (FONT: (Z.max 20 (Z.min 28 (W ÷ 70)) < Z.max 24 (Z.min 32 (W ÷ 60)))%Z).
  { Z.quot_rem_to_equations. lia. }
  split; [lia|]. split; [lia|]. split; [lia|]. split; [lia|]. split; [lia|].
  split; [exact FONT|]. split; [lia|]. split; [lia|].
  intros Hle. repeat split;
    apply Z.max_le_compat_l, Z.min_le_compat_l, Z.quot_le_mono; lia.
Qed.

(** ** The crawler and the dashboard on the same values *)

Lemma price_char_code c : is_price_char (code c) = is_price_ascii c.
Proof. ascii_cases c; reflexivity. Qed.

Lemma priced_ascii_split c :
  is_priced_ascii c = true → is_currency c = negb (is_price_ascii c).
Proof. ascii_cases c; vm_compute; congruence. Qed.

Lemma keep_price_chars_codes s :
  forall_chars is_priced_ascii s = true →
  keep_price_chars (codes s) = remove_chars is_currency s.
Proof.
  unfold keep_price_chars, codes.
  induction s as [|c s IH]; [done|].
  cbn [forall_chars]. rewrite andb_true_iff. intros [Hc Hs].
  cbn [String.list_ascii_of_string fmap list_fmap List.filter remove_chars].
  rewrite price_char_code, (priced_ascii_split c Hc).
  destruct (is_price_ascii c); cbn [negb fmap list_fmap String.string_of_list_ascii].
  - unfold code. rewrite ascii_N_embedding. f_equal. apply IH, Hs.
  - apply IH, Hs.
Qed.

Lemma remove_currency_text s :
  forall_chars is_priced_ascii s = true →
  forall_chars is_price_ascii (remove_chars is_currency s) = true.
Proof.
  intros Hs. rewrite <- (keep_price_chars_codes s Hs).
  apply keep_price_chars_text.
Qed.

Lemma price_ascii_number c : is_price_ascii c = true → is_number_ascii c = true.
Proof. unfold is_number_ascii. by intros ->. Qed.

Lemma digits_prefix_spec s d r :
  digits_prefix s = (d, r) → s = d +:+ r ∧ all_digits d = true.
Proof.
  revert d r. induction s as [|c s IH]; intros d r; simpl.
  - by intros [= <- <-].
  - destruct (is_digit c) eqn:Hc.
    + destruct (digits_prefix s) as [d' r'] eqn:Hp. intros [= <- <-].
      destruct (IH d' r' eq_refl) as [-> Hd].
      split; [by rewrite append_cons|]. simpl. by rewrite Hc.
    + by intros [= <- <-].
Qed.

Lemma digits_value_bound d :
  all_digits d = true → (digits_value d < 10 ^ N.of_nat (String.length d))%N.
Proof.
  induction d as [|c d IH]; [intros _; vm_compute; done|].
  cbn [all_digits]. rewrite andb_true_iff. intros [Hc Hd]. specialize (IH Hd).
  assert (digit_val c <= 9)%N as Hv.
  { unfold is_digit, digit_val in *. apply andb_true_iff in Hc as [H1 H2].
    apply N.leb_le in H1, H2. lia. }
  unfold digits_value. cbn [digits_value_from String.length].
  rewrite digits_value_from_acc, Nat2N.inj_succ, N.pow_succ_r'. nia.
Qed.

Lemma parse_exponent_price s e :
  forall_chars is_price_ascii s = true → parse_exponent s = Some e →
  s = "" ∧ e = 0%Z.
Proof.
  destruct s as [|c s]; [by intros _ [= <-]|].
  cbn [forall_chars parse_exponent]. rewrite andb_true_iff. intros [Hc _].
  assert (is_exp_mark c = false) as ->; [|done].
  revert Hc. ascii_cases c; vm_compute; congruence.
Qed.

Lemma decimal_value_le m k :
  (decimal_value false m k 0 <= inject_Z (Z.of_N m))%Q.
Proof.
  rewrite decimal_value_make, Qred_correct. unfold Qle, inject_Z.
  cbn [Qnum Qden].
  assert (0 < 10 ^ Z.of_nat k)%Z as Hpos by (apply Z.pow_pos_nonneg; lia).
  rewrite Z2Pos.id by exact Hpos. nia.
Qed.

(** The number written by a text of digits and points is below 10 to the
    length of the text. *)
Lemma parse_decimal_price_bound t q :
  forall_chars is_price_ascii t = true → parse_decimal t = Some q →
  (q <= inject_Z (Z.of_N (10 ^ N.of_nat (String.length t))))%Q.
Proof.
  intros Ht. unfold parse_decimal.
  assert (read_sign t = (false, t)) as ->.
  { destruct t as [|c t]; [done|]. cbn [forall_chars] in Ht.
    apply andb_true_iff in Ht as [Hc _].
    destruct (price_ascii_not_sign c Hc). by apply read_sign_other. }
  destruct (digits_prefix t) as [ip s2] eqn:Hip.
  destruct (digits_prefix_spec _ _ _ Hip) as [-> Hdip].
  rewrite forall_chars_app in Ht. apply andb_true_iff in Ht as [_ Hs2].
  assert (∃ fp s3,
            match s2 with
            | String "." r => digits_prefix r
            | _ => (EmptyString, s2)
            end = (fp, s3)
            ∧ all_digits fp = true
            ∧ forall_chars is_price_ascii s3 = true
            ∧ String.length fp + String.length s3 ≤ String.length s2)
    as (fp & s3 & -> & Hdfp & Hs3 & Hlen).
  { destruct s2 as [|c r].
    { exists "", "". by repeat split. }
    destruct (ascii_dec c ".") as [->|Hne].
    - destruct (digits_prefix r) as [fp s3] eqn:Hfp.
      destruct (digits_prefix_spec _ _ _ Hfp) as [-> Hd].
      exists fp, s3. split; [done|]. split; [exact Hd|].
      cbn [forall_chars] in Hs2. apply andb_true_iff in Hs2 as [_ Hr].
      rewrite forall_chars_app in Hr. apply andb_true_iff in Hr as [_ Hr].
      split; [exact Hr|]. cbn [String.length]. rewrite length_append. lia.
    - exists "", (String c r). split.
      + revert Hne. ascii_cases c; try reflexivity; congruence.
      + split; [done|]. split; [exact Hs2|]. simpl. lia. }
  destruct (str_empty ip && str_empty fp); [done|].
  destruct (parse_exponent s3) as [e|] eqn:He; [|done].
  destruct (parse_exponent_price s3 e Hs3 He) as [-> ->].
  intros [= <-].
  eapply Qle_trans; [apply decimal_value_le|].
  rewrite <- Zle_Qle. apply N2Z.inj_le.
  assert (all_digits (ip +:+ fp) = true) as Hd.
  { rewrite all_digits_forall, forall_chars_app, <- !all_digits_forall.
    by rewrite Hdip, Hdfp. }
  pose proof (digits_value_bound _ Hd) as Hb.
  transitivity (10 ^ N.of_nat (String.length (ip +:+ fp)))%N; [lia|].
  apply N.pow_le_mono_r; [lia|]. rewrite !length_append. simpl in Hlen. lia.
Qed.

(** A number written with at most 15 digits and points is far inside the
    range of doubles. *)
Lemma short_price_in_range t q :
  String.length t ≤ 15 → forall_chars is_price_ascii t = true →
  parse_decimal t = Some q → overflows q = false.
Proof.
  intros Hlen Ht Hq. unfold overflows.
  apply not_true_is_false. rewrite Qle_bool_iff. intros Hle.
  assert (0 <= q)%Q as Hpos.
  { eapply parse_decimal_unsigned; [|exact Hq]. by apply price_text_unsigned. }
  rewrite (Qabs_pos q Hpos) in Hle.
  pose proof (parse_decimal_price_bound t q Ht Hq) as Hb.
  assert (10 ^ N.of_nat (String.length t) <= 10 ^ 15)%N as Hpow
    by (apply N.pow_le_mono_r; lia).
  apply N2Z.inj_le in Hpow. rewrite Zle_Qle in Hpow.
  pose proof (Qle_trans _ _ _ Hle (Qle_trans _ _ _ Hb Hpow)) as Habs.
  unfold DBL_OVERFLOW in Habs. rewrite <- Zle_Qle in Habs.
  revert Habs. apply Z.lt_nge. vm_compute. reflexivity.
Qed.

Lemma remove_chars_length cls s :
  String.length (remove_chars cls s) ≤ String.length s.
Proof.
  induction s as [|c s IH]; simpl; [done|]. destruct (cls c); simpl; lia.
Qed.

Lemma to_numeric_price_text t :
  forall_chars is_price_ascii t = true →
  to_numeric t
  = match parse_decimal t with
    | Some q => if overflows q then NaN else Fin q
    | None => NaN
    end.
Proof.
  intros Ht. unfold to_numeric. destruct (parse_decimal t); [done|].
  destruct t as [|c t]; [reflexivity|].
  cbn [forall_chars] in Ht. apply andb_true_iff in Ht as [Hc _].
  destruct (price_ascii_not_sign c Hc) as [Hm Hp].
  rewrite (read_sign_other c t Hm Hp). cbn [lower].
  revert Hc. ascii_cases c; vm_compute; try congruence; intros _;
    repeat case_bool_decide; congruence.
Qed.

(** A price of at most 15 characters written with digits, points and the
    signs [£], [,] and [$] is read alike by the crawler's [clean_price] and
    by the Price cleaning of [load_data]: both find the same number, which
    is not negative; and where the text holds no number the crawler warns
    and records 0.0 while [load_data] gets NaN.  (On a longer text the two
    may part: beyond the range of doubles [float] gives infinity and
    [to_numeric] NaN.) *)
Theorem price_readers_agree (s : string) :
  String.length s ≤ 15 →
  forall_chars is_priced_ascii s = true →
  (∃ q, (0 <= q)%Q
        ∧ clean_price (codes s) = (Fin q, [])
        ∧ clean_price_cell (CStr s) = CFlt (Fin q))
  ∨ (∃ t, clean_price (codes s) = (Fin 0, [WarnPrice t])
          ∧ clean_price_cell (CStr s) = CFlt NaN).
Proof.
  intros Hlen Hs.
  pose proof (keep_price_chars_codes s Hs) as Hkeep.
  pose proof (remove_currency_text s Hs) as Ht.
  assert (String.length (remove_chars is_currency s) ≤ 15) as Hlen'
    by (pose proof (remove_chars_length is_currency s); lia).
  assert (clean_price_cell (CStr s)
          = CFlt match parse_decimal (remove_chars is_currency s) with
                 | Some q => if overflows q then NaN else Fin q
                 | None => NaN
                 end) as Hcell.
  { unfold clean_price_cell, price_text. cbn [py_str].
    rewrite <- (to_numeric_price_text _ Ht). do 2 f_equal.
    rewrite <- (remove_chars_none is_currency (remove_chars is_currency s)) at 1.
    - apply price_text_number_text.
      eapply forall_chars_impl; [|exact Ht]. apply price_ascii_number.
    - eapply forall_chars_impl; [|exact Ht].
      intros c Hc. by rewrite (number_ascii_not_currency c (price_ascii_number c Hc)). }
  destruct (parse_decimal (remove_chars is_currency s)) as [q|] eqn:Hq.
  - rewrite (short_price_in_range _ q Hlen' Ht Hq) in Hcell.
    left. exists q. split; [|split; [|exact Hcell]].
    + eapply parse_decimal_unsigned; [|exact Hq]. by apply price_text_unsigned.
    + apply clean_price_parsed. by rewrite Hkeep.
  - right. exists (remove_chars is_currency s). split; [|exact Hcell].
    rewrite <- Hkeep. apply clean_price_failed. by rewrite Hkeep.
Qed.

(** Every rating that the crawler records for a rating word is a whole
    number from 1 to 5 that [clean_rating] reads back as the same number,
    and [clean_rating] gives that number for the word itself as well: the
    two tables of rating words agree. *)
Theorem crawler_ratings_readable (rating_word : string) (n : Z) :
  rating_map_get rating_word = Some n →
  (1 <= n <= 5)%Z
  ∧ clean_rating (CInt n) = Some (Fin (inject_Z n))
  ∧ clean_rating (CStr rating_word) = Some (Fin (inject_Z n)).
Proof.
  unfold rating_map_get.
  repeat case_bool_decide; intros [= <-]; subst;
    (split; [lia|]); split; reflexivity.
Qed.

(** ** The loop over the pages *)

Lemma scrape_book_record page books e :
  fst (scrape_book page books e) = books ++ option_list (record_of e).
Proof.
  destruct e; [|by rewrite app_nil_r].
  by rewrite scrape_book_extracted.
Qed.

Lemma scrape_elements_records page books book_elements :
  scrape_elements page books book_elements
  = books ++ omap record_of book_elements.
Proof.
  unfold scrape_elements. revert books.
  induction book_elements as [|e l IH]; intros books; [by rewrite app_nil_r|].
  cbn [foldl]. rewrite IH, scrape_book_record.
  rewrite <- app_assoc. f_equal. simpl. by destruct (record_of e).
Qed.

Lemma crawl_from site st pages :
  foldl (scrape_page site) st pages
  = mkCrawl (cs_books st ++ concat ((λ p, page_records (site p)) <$> pages))
            (cs_slept st + length (List.filter (λ p, is_fetched (site p)) pages)).
Proof.
  revert st. induction pages as [|p pages IH]; intros st.
  - cbn. rewrite app_nil_r, Nat.add_0_r. by destruct st.
  - cbn [foldl]. rewrite IH. unfold scrape_page.
    cbn [fmap list_fmap concat List.filter].
    destruct (site p) as [book_elements|]; cbn [page_records is_fetched cs_books cs_slept].
    + rewrite scrape_elements_records, <- app_assoc. f_equal. cbn [length]. lia.
    + done.
Qed.

(** The crawl collects exactly the records of the books whose extraction
    did not raise, page after page and in the order of each page: a book
    that fails, or a page whose fetch fails, takes nothing else with it.
    It sleeps once after each page it fetched and never after a page that
    failed, so at most 50 times. *)
Theorem crawl_collects (site : nat → page_fetch) :
  cs_books (crawl site) = concat ((λ p, page_records (site p)) <$> seq 1 50)
  ∧ cs_slept (crawl site)
    = length (List.filter (λ p, is_fetched (site p)) (seq 1 50))
  ∧ cs_slept (crawl site) ≤ 50.
Proof.
  unfold crawl. rewrite crawl_from. cbn [cs_books cs_slept app Nat.add].
  split; [done|]. split; [done|].
  etransitivity; [apply filter_length_le|]. by rewrite length_seq.
Qed.

(** Every record that the crawl collects has a price that is a number not
    below zero and a rating that is either missing or a whole number from
    1 to 5. *)
Theorem crawl_records_wellformed (site : nat → page_fetch) (b : BookRecord) :
  b ∈ cs_books (crawl site) →
  nonneg_float (b_price b)
  ∧ (b_rating b = None ∨ ∃ n, b_rating b = Some n ∧ (1 <= n <= 5)%Z).
Proof.
  unfold crawl. rewrite crawl_from. cbn [cs_books app].
  intros Hb. apply list_elem_of_In, in_concat in Hb as (recs & Hrecs & Hb).
  apply list_elem_of_In in Hb.
  apply list_elem_of_In, list_elem_of_fmap in Hrecs as (p & -> & _).
  destruct (site p) as [book_elements|]; cbn [page_records] in Hb;
    [|by apply elem_of_nil in Hb].
  apply list_elem_of_omap in Hb as (e & _ & He).
  destruct e as [title price_raw rating_word availability category description|];
    [|done].
  injection He as <-. cbn [b_price b_rating]. split; [apply clean_price_nonneg|].
  unfold rating_map_get. repeat case_bool_decide; eauto 10 with lia.
Qed.

(** ** A selection that selects nothing *)

Lemma selected_nothing cols sel row :
  selected_ratings sel = [] ∨ selected_availability sel = [] →
  selected cols sel row = false.
Proof.
  unfold selected. intros [H|H]; rewrite H.
  - by destruct (get cols "Rating" row).
  - assert (isin_strings [] (get cols "Availability" row) = false) as ->;
      [|apply andb_false_r].
    by destruct (get cols "Availability" row).
Qed.

(** When no rating or no availability is selected, the view of a frame
    that [load_data] returned has no rows, and [calculate_kpis] still
    returns on it, without dividing by zero: the counts and the rate are 0,
    the averages and the price bounds NaN. *)
Theorem nothing_selected_view (df0 df : DataFrame) (sel : selection) :
  load_data df0 = Loaded df →
  selected_ratings sel = [] ∨ selected_availability sel = [] →
  rows (filter_df df sel) = []
  ∧ calculate_kpis (filter_df df sel)
    = Some (mkKPIs NaN NaN 0 0 NaN NaN (Fin 0)).
Proof.
  intros Hload Hsel.
  assert (rows (filter_df df sel) = []) as Hrows.
  { unfold filter_df. cbn [rows].
    induction (rows df) as [|row l IH]; [done|].
    cbn [List.filter]. by rewrite (selected_nothing _ _ row Hsel). }
  split; [exact Hrows|].
  rewrite (calculate_kpis_ready _
             (kpi_ready_filter df sel (loaded_kpi_ready df0 df Hload))).
  unfold column. rewrite Hrows.
  cbn [fmap list_fmap List.filter length series_mean series_min series_max].
  by repeat destruct (has_column _ _).
Qed.

(** ** The statements of this part at concrete inputs *)

Lemma crawled_frame_loads : load_data crawled_frame = Loaded crawled_loaded.
Proof. vm_compute. reflexivity. Qed.

Lemma scenario_frame_loads :
  load_data scenario_frame
  = Loaded (mkDataFrame ["Title"; "Price"; "Rating"; "Availability"] []).
Proof. vm_compute. reflexivity. Qed.

(** The header of the crawler's table after loading. *)
Lemma loaded_header_witness :
  load_data crawled_frame = Loaded crawled_loaded
  ∧ NoDup (columns crawled_loaded)
  ∧ ∀ f, f ∈ required_cols → f ∈ columns crawled_loaded.
Proof.
  split; [exact crawled_frame_loads|].
  destruct (loaded_header crawled_frame crawled_loaded crawled_frame_loads)
    as (Hnd & Hreq & _).
  split; [exact Hnd | exact Hreq].
Defined.

(** The two rows of the crawler's table come back in their order. *)
Lemma loaded_rows_in_order_witness :
  load_data crawled_frame = Loaded crawled_loaded
  ∧ rows crawled_loaded
      `sublist_of` (normalize_row (columns crawled_loaded)
                    <$> (select_mask (kept crawled_frame) <$> rows crawled_frame))
  ∧ length (rows crawled_loaded) ≤ length (rows crawled_frame).
Proof.
  split; [exact crawled_frame_loads|].
  destruct (loaded_rows_in_order crawled_frame crawled_loaded crawled_frame_loads)
    as (Hsub & Hlen & _).
  split; [exact Hsub | exact Hlen].
Defined.

(** The Availability [ Out of stock ] of the second row comes back
    trimmed. *)
Lemma loaded_availability_trimmed_witness :
  load_data crawled_frame = Loaded crawled_loaded
  ∧ [CStr "Tipping the Velvet"; CFlt (Fin (2687 # 50)); CFlt (Fin 1);
     CStr "Out of stock"; CStr "Unknown"; CStr "No description available"]
    ∈ rows crawled_loaded
  ∧ ∃ a, CStr "Out of stock" = CStr a ∧ strip a = a.
Proof.
  assert ([CStr "Tipping the Velvet"; CFlt (Fin (2687 # 50)); CFlt (Fin 1);
           CStr "Out of stock"; CStr "Unknown"; CStr "No description available"]
          ∈ rows crawled_loaded) as Hrow.
  { unfold crawled_loaded. cbn [rows]. rewrite !elem_of_cons. tauto. }
  split; [exact crawled_frame_loads|]. split; [exact Hrow|].
  destruct (loaded_availability_trimmed crawled_frame crawled_loaded
              crawled_frame_loads _ Hrow) as (a & Ha & Hs & _).
  exists a. split; [exact Ha | exact Hs].
Defined.

(** The first row of the crawler's table is kept: it has a Title, and its
    Price and its Rating read as numbers. *)
Lemma loaded_rows_criterion_witness :
  load_data crawled_frame = Loaded crawled_loaded
  ∧ [CStr "A Light in the Attic"; CFlt (Fin (5177 # 100)); CInt 3;
     CStr "In stock"; CStr "Poetry"; CStr "No description available"]
    ∈ rows (resolved crawled_frame)
  ∧ (normalize_row (columns (resolved crawled_frame))
       [CStr "A Light in the Attic"; CFlt (Fin (5177 # 100)); CInt 3;
        CStr "In stock"; CStr "Poetry"; CStr "No description available"]
     ∈ rows crawled_loaded
     ↔ isnull (CStr "A Light in the Attic") = false
       ∧ to_numeric (price_text (CFlt (Fin (5177 # 100)))) ≠ NaN
       ∧ clean_rating (CInt 3) ≠ Some NaN).
Proof.
  assert ([CStr "A Light in the Attic"; CFlt (Fin (5177 # 100)); CInt 3;
           CStr "In stock"; CStr "Poetry"; CStr "No description available"]
          ∈ rows (resolved crawled_frame)) as Hrow.
  { apply list_elem_of_In. vm_compute. left. reflexivity. }
  split; [exact crawled_frame_loads|]. split; [exact Hrow|].
  exact (loaded_rows_criterion crawled_frame crawled_loaded crawled_frame_loads
           _ Hrow eq_refl).
Defined.

(** The scenario frame holds its ratings as floats and loads without
    rows. *)
Lemma float_ratings_dropped_witness :
  load_data scenario_frame
  = Loaded (mkDataFrame ["Title"; "Price"; "Rating"; "Availability"] [])
  ∧ (∀ row, row ∈ rows (resolved scenario_frame) →
       ∃ x, get (columns (resolved scenario_frame)) "Rating" row = CFlt x)
  ∧ clean_rating (CFlt (Fin 3)) = Some NaN
  ∧ rows (mkDataFrame ["Title"; "Price"; "Rating"; "Availability"] []) = [].
Proof.
  assert (∀ row, row ∈ rows (resolved scenario_frame) →
            ∃ x, get (columns (resolved scenario_frame)) "Rating" row = CFlt x)
    as Hall.
  { intros row Hrow. apply list_elem_of_In in Hrow. vm_compute in Hrow.
    destruct Hrow as [<-|[<-|[]]]; eexists; reflexivity. }
  split; [exact scenario_frame_loads|]. split; [exact Hall|].
  destruct (float_ratings_dropped scenario_frame _ scenario_frame_loads)
    as (Hflt & _ & Hnone).
  split; [exact (Hflt (Fin 3)) | exact (Hnone Hall)].
Defined.

(** The header of the crawler's table is accepted. *)
Lemma header_accepted_witness :
  NoDup (stripped crawled_frame)
  ∧ (∀ entry, entry ∈ keywords →
       ∃ c, c ∈ stripped crawled_frame ∧ names_only entry c)
  ∧ ∃ out, load_data crawled_frame = Loaded out.
Proof.
  assert (NoDup (stripped crawled_frame)) as Hnd.
  { apply (bool_decide_eq_true_1 _). vm_compute. reflexivity. }
  assert (∀ entry, entry ∈ keywords →
            ∃ c, c ∈ stripped crawled_frame ∧ names_only entry c) as Hall.
  { assert (∀ entry c, entry ∈ keywords → has_keyword c entry = true →
              forallb (λ other, bool_decide (other = entry)
                                || negb (has_keyword c other)) keywords = true →
              names_only entry c) as Hnames.
    { intros entry c _ Hkw Hothers. split; [exact Hkw|].
      intros other Hin Hne. rewrite forallb_forall in Hothers.
      apply list_elem_of_In, Hothers in Hin.
      apply orb_true_iff in Hin as [Heq|Hno].
      - by apply bool_decide_eq_true in Heq.
      - by apply negb_true_iff in Hno. }
    intros entry Hin. pose proof Hin as Hin'.
    unfold keywords in Hin. rewrite !elem_of_cons, elem_of_nil in Hin.
    destruct Hin as [->|[->|[->|[->|[]]]]].
    - exists "Title". split; [apply list_elem_of_In; vm_compute; tauto|].
      apply Hnames; [exact Hin'|reflexivity..].
    - exists ("Price (" +:+ pound +:+ ")").
      split; [apply list_elem_of_In; vm_compute; tauto|].
      apply Hnames; [exact Hin'|reflexivity..].
    - exists "Rating". split; [apply list_elem_of_In; vm_compute; tauto|].
      apply Hnames; [exact Hin'|reflexivity..].
    - exists "Availability". split; [apply list_elem_of_In; vm_compute; tauto|].
      apply Hnames; [exact Hin'|reflexivity..]. }
  split; [exact Hnd|]. split; [exact Hall|].
  exact (proj2 (header_accepted crawled_frame Hnd Hall)).
Defined.




(** The loaded table of the crawler under its default selection. *)
Lemma default_selection_keeps_all_witness :
  load_data crawled_frame = Loaded crawled_loaded
  ∧ filter_df crawled_loaded (default_selection crawled_loaded) = crawled_loaded.
Proof.
  split; [exact crawled_frame_loads|].
  exact (default_selection_keeps_all crawled_frame crawled_loaded
           crawled_frame_loads).
Defined.

(** An availability as the site writes it. *)
Lemma in_stock_is_green_witness :
  str_contains_nocase "In stock" (CStr "In stock (22 available)") = true
  ∧ availability_color "In stock (22 available)" = "#28a745".
Proof.
  assert (str_contains_nocase "In stock" (CStr "In stock (22 available)") = true)
    as Hin by reflexivity.
  split; [exact Hin|].
  exact (proj1 (in_stock_is_green "In stock (22 available)") Hin).
Defined.

(** A laptop screen and a wider one. *)
Lemma font_sizes_ordered_witness :
  (1366 <= 1920)%Z
  ∧ (FONT_SIZE_BASE 1366 <= FONT_SIZE_BASE 1920)%Z
  ∧ (FONT_SIZE_KPI 1366 < FONT_SIZE_HEADER 1366)%Z.
Proof.
  assert (1366 <= 1920)%Z as Hle by lia.
  split; [exact Hle|].
  destruct (font_sizes_ordered 1366 1920 768)
    as (_ & _ & _ & _ & _ & Hlt & _ & _ & Hmono).
  split; [exact (proj1 (Hmono Hle)) | exact Hlt].
Defined.

(** The price text of the first book of the site, pound sign included. *)
Lemma price_readers_agree_witness :
  String.length (pound +:+ "51.77") ≤ 15
  ∧ forall_chars is_priced_ascii (pound +:+ "51.77") = true
  ∧ ((∃ q, (0 <= q)%Q
           ∧ clean_price (codes (pound +:+ "51.77")) = (Fin q, [])
           ∧ clean_price_cell (CStr (pound +:+ "51.77")) = CFlt (Fin q))
     ∨ (∃ t, clean_price (codes (pound +:+ "51.77")) = (Fin 0, [WarnPrice t])
             ∧ clean_price_cell (CStr (pound +:+ "51.77")) = CFlt NaN)).
Proof.
  assert (String.length (pound +:+ "51.77") ≤ 15) as Hlen
    by (vm_compute; lia).
  assert (forall_chars is_priced_ascii (pound +:+ "51.77") = true) as Hs
    by reflexivity.
  split; [exact Hlen|]. split; [exact Hs|].
  exact (price_readers_agree (pound +:+ "51.77") Hlen Hs).
Defined.

(** The rating word [Three]. *)
Lemma crawler_ratings_readable_witness :
  rating_map_get "Three" = Some 3%Z
  ∧ clean_rating (CInt 3) = Some (Fin 3)
  ∧ clean_rating (CStr "Three") = Some (Fin 3).
Proof.
  assert (rating_map_get "Three" = Some 3%Z) as Hw by reflexivity.
  split; [exact Hw|].
  exact (proj2 (crawler_ratings_readable "Three" 3 Hw)).
Defined.

(** The one record collected from [sample_site]. *)
Lemma crawl_records_wellformed_witness :
  sample_record ∈ cs_books (crawl sample_site)
  ∧ nonneg_float (b_price sample_record).
Proof.
  assert (sample_record ∈ cs_books (crawl sample_site)) as Hb.
  { apply list_elem_of_In. vm_compute. left. reflexivity. }
  split; [exact Hb|].
  exact (proj1 (crawl_records_wellformed sample_site sample_record Hb)).
Defined.

(** The loaded table of the crawler with no rating selected. *)
Lemma nothing_selected_view_witness :
  load_data crawled_frame = Loaded crawled_loaded
  ∧ (selected_ratings (mkSelection [] (Fin 0, Fin 100) ["In stock"]) = []
     ∨ selected_availability (mkSelection [] (Fin 0, Fin 100) ["In stock"]) = [])
  ∧ calculate_kpis
      (filter_df crawled_loaded (mkSelection [] (Fin 0, Fin 100) ["In stock"]))
    = Some (mkKPIs NaN NaN 0 0 NaN NaN (Fin 0)).
Proof.
  assert (selected_ratings (mkSelection [] (Fin 0, Fin 100) ["In stock"]) = []
          ∨ selected_availability (mkSelection [] (Fin 0, Fin 100) ["In stock"])
            = []) as Hsel by (left; reflexivity).
  split; [exact crawled_frame_loads|]. split; [exact Hsel|].
  exact (proj2 (nothing_selected_view crawled_frame crawled_loaded _
                  crawled_frame_loads Hsel)).
Defined.
